(** * Flappy-bird: the evolutionary simulation and the playable variant

    A shallow embedding of [flappy_ai.py] and [flappy_playable.py].

    Numbers.  Python floats are read as exact rationals ([Q]): every
    constant of the two programs (0.4, -7.0, 2.5, 0.1, 580, ...) is a
    decimal, and the properties below are about comparisons and affine
    arithmetic on them.  Rounding is outside this model.  The only
    transcendental function, [math.exp], belongs to the Python library: the
    decision function takes it as a parameter.

    Effects.  Exceptions are an error type ([result]); the process-wide
    random generator is an explicit stream of raw outputs ([Rng]); the brain
    dictionaries and their weight lists, which the genetic operators copy and
    mutate in place, live in an explicit object store ([Heap]) so that
    sharing is visible.  Drawing, the clock and console output do not touch
    the simulated state and are left out. *)

From Stdlib Require Import QArith Qabs Qround Lqa ZArith List Bool Lia.
From stdpp Require Import base option list sorting.

Open Scope Q_scope.

(* ===================================================================== *)
(** * Part I: the programs                                                *)
(* ===================================================================== *)

(** ** Python values and builtins *)

Inductive exn : Type := IndexError | ZeroDivisionError | TypeError.

Inductive result (A : Type) : Type :=
| Ok (a : A)
| Raise (e : exn).
Arguments Ok {A} a.
Arguments Raise {A} e.

Definition rbind {A B} (m : result A) (k : A -> result B) : result B :=
  match m with
  | Ok a => k a
  | Raise e => Raise e
  end.

Declare Scope py_scope.
Delimit Scope py_scope with py.
Notation "'do' x <- m ; k" := (rbind m (fun x => k))
  (at level 10, x pattern, m at level 100, k at level 200) : py_scope.
Open Scope py_scope.

Module Py.

(** [a < b] on floats, as a boolean. *)
Definition ltb (a b : Q) : bool := if Qlt_le_dec a b then true else false.

(** [min(a, b)]: the first argument unless the second is smaller. *)
Definition min (a b : Q) : Q := if ltb b a then b else a.

(** [max(a, b)]: the first argument unless the second is larger. *)
Definition max (a b : Q) : Q := if ltb a b then b else a.

(** [a / b] with Python's check of the divisor. *)
Definition div (a b : Q) : result Q :=
  if Qeq_bool b 0 then Raise ZeroDivisionError else Ok (a / b).

(** [l[i]] on a list. *)
Definition index {A} (l : list A) (i : nat) : result A :=
  match l !! i with
  | Some a => Ok a
  | None => Raise IndexError
  end.

End Py.

Infix "<?" := Py.ltb (at level 70, no associativity) : Q_scope.

(** ** The random generator

    [random] is a library module.  Its state is a stream of raw outputs and
    a read position; [random()] scales one output into [[0, 1)] with 53
    bits, [uniform(a, b)] is [a + (b - a) * random()] and [randbelow n]
    reduces one output modulo [n], as the library does. *)

Module Random.

Record Rng : Type := mkRng { words : nat -> Z; pos : nat }.

Definition next (g : Rng) : Z * Rng :=
  (words g (pos g), {| words := words g; pos := S (pos g) |}).

Definition two53 : Z := 2 ^ 53.

Definition random (g : Rng) : Q * Rng :=
  let (w, g') := next g in
  (inject_Z (w mod two53) / inject_Z two53, g').

Definition uniform (a b : Q) (g : Rng) : Q * Rng :=
  let (u, g') := random g in
  (a + (b - a) * u, g').

Definition randbelow (n : nat) (g : Rng) : nat * Rng :=
  let (w, g') := next g in
  (Z.to_nat (w mod Z.of_nat n), g').

(** [sample(population, k)]: [k] picks without replacement from a pool;
    the picked slot is refilled with the pool's last live element. *)
Fixpoint sample_pool {A} (pool : list A) (k : nat) (g : Rng)
  : result (list A * Rng) :=
  match k with
  | O => Ok ([], g)
  | S k' =>
      let n := length pool in
      let (j, g1) := randbelow n g in
      do xj <- Py.index pool j;
      do xl <- Py.index pool (n - 1);
      do (rest, g2) <- sample_pool (take (n - 1) (<[j := xl]> pool)) k' g1;
      Ok (xj :: rest, g2)
  end.

Definition sample {A} (population : list A) (k : nat) (g : Rng)
  : result (list A * Rng) :=
  sample_pool population k g.

End Random.

(** ** The object store

    A brain is a dictionary [{"weights": <list>, "bias": <float>}].  Both the
    dictionary and the list are mutable objects: the store maps an address
    to one of them, and allocation appends. *)

Abbreviation loc := nat (only parsing).

Inductive Obj : Type :=
| BrainDict (weights : loc) (bias : Q)
| FloatList (items : list Q).

Abbreviation Heap := (list Obj) (only parsing).

Definition alloc (o : Obj) (h : Heap) : loc * Heap := (length h, h ++ [o]).

Definition get_dict (h : Heap) (l : loc) : result (loc * Q) :=
  match h !! l with
  | Some (BrainDict w b) => Ok (w, b)
  | _ => Raise TypeError
  end.

Definition get_list (h : Heap) (l : loc) : result (list Q) :=
  match h !! l with
  | Some (FloatList ws) => Ok ws
  | _ => Raise TypeError
  end.

(** [brain["weights"]] and [brain["bias"]]. *)
Definition brain_weights (h : Heap) (brain : loc) : result (list Q) :=
  do (w, _) <- get_dict h brain;
  get_list h w.

Definition brain_bias (h : Heap) (brain : loc) : result Q :=
  do (_, b) <- get_dict h brain;
  Ok b.

(* --------------------------------------------------------------------- *)
(** ** flappy_ai.py                                                       *)
(* --------------------------------------------------------------------- *)

Module AI.

(** Attributes of a [Pipe] and of a [Bird]. *)
Module PipeData.
Record t : Type := mk
  { x : Q; width : Q; top_height : Q; bottom_height : Q }.
End PipeData.

Module BirdData.
Record t : Type := mk
  { x : Q; y : Q; velocity : Q; alive : bool;
    score : Z; fitness : Q; brain : loc }.

Definition set_y (v : Q) (b : t) : t :=
  mk (x b) v (velocity b) (alive b) (score b) (fitness b) (brain b).
Definition set_velocity (v : Q) (b : t) : t :=
  mk (x b) (y b) v (alive b) (score b) (fitness b) (brain b).
Definition set_alive (v : bool) (b : t) : t :=
  mk (x b) (y b) (velocity b) v (score b) (fitness b) (brain b).
Definition set_score (v : Z) (b : t) : t :=
  mk (x b) (y b) (velocity b) (alive b) v (fitness b) (brain b).
Definition set_fitness (v : Q) (b : t) : t :=
  mk (x b) (y b) (velocity b) (alive b) (score b) v (brain b).
Definition set_brain (v : loc) (b : t) : t :=
  mk (x b) (y b) (velocity b) (alive b) (score b) (fitness b) v.
End BirdData.

Module Bird.
Import BirdData.

(** [create_random_brain]: four weights from [uniform(-2, 2)], then the
    bias from [uniform(-1, 1)]; a fresh list and a fresh dictionary. *)
Fixpoint random_weights (n : nat) (g : Random.Rng) : list Q * Random.Rng :=
  match n with
  | O => ([], g)
  | S n' =>
      let (w, g1) := Random.uniform (-2.0) 2.0 g in
      let (ws, g2) := random_weights n' g1 in
      (w :: ws, g2)
  end.

Definition create_random_brain (h : Heap) (g : Random.Rng)
  : loc * Heap * Random.Rng :=
  let (ws, g1) := random_weights 4 g in
  let (b, g2) := Random.uniform (-1.0) 1.0 g1 in
  let (wl, h1) := alloc (FloatList ws) h in
  let (bl, h2) := alloc (BrainDict wl b) h1 in
  (bl, h2, g2).

(** [Bird()] *)
Definition init (h : Heap) (g : Random.Rng) : t * Heap * Random.Rng :=
  let '(bl, h', g') := create_random_brain h g in
  (mk 100.0 300.0 0.0 true 0 0.0 bl, h', g').

(** The search loop of [think]: the running [closest_pipe] and
    [min_distance] ([None] is Python's [None], respectively [inf]). *)
Definition closest_step (self : t) (acc : option PipeData.t * option Q)
           (pipe : PipeData.t) : option PipeData.t * option Q :=
  if x self - 50 <? PipeData.x pipe then
    let distance := Qabs (PipeData.x pipe - x self) in
    match snd acc with
    | None => (Some pipe, Some distance)
    | Some min_distance =>
        if distance <? min_distance then (Some pipe, Some distance)
        else acc
    end
  else acc.

Definition closest (self : t) (pipes : list PipeData.t)
  : option PipeData.t :=
  fst (fold_left (closest_step self) pipes (None, None)).

(** The first half of [think]: the closest pipe ahead, or else
    [pipes[0]]. *)
Definition choose_pipe (self : t) (pipes : list PipeData.t)
  : result PipeData.t :=
  match closest self pipes with
  | Some p => Ok p
  | None => Py.index pipes 0
  end.

Definition inputs (self : t) (closest_pipe : PipeData.t) : list Q :=
  [ y self / 600.0;
    velocity self / 10.0;
    (PipeData.x closest_pipe - x self) / 400.0;
    ((PipeData.top_height closest_pipe
      + PipeData.bottom_height closest_pipe) / 2) / 600.0 ].

(** [for i in range(4): output += inputs[i] * self.brain["weights"][i]] *)
Fixpoint weighted_sum (h : Heap) (brain : loc) (ins : list Q)
         (idx : list nat) (output : Q) : result Q :=
  match idx with
  | [] => Ok output
  | i :: rest =>
      do inp <- Py.index ins i;
      do ws <- brain_weights h brain;
      do w <- Py.index ws i;
      weighted_sum h brain ins rest (output + inp * w)
  end.

Section Think.
(** [math.exp] *)
Variable exp : Q -> Q.

(** The second half of [think]: the network on the chosen pipe. *)
Definition decide (h : Heap) (self : t) (closest_pipe : PipeData.t)
  : result bool :=
  let ins := inputs self closest_pipe in
  do bias <- brain_bias h (brain self);
  do output <- weighted_sum h (brain self) ins (seq 0 4) bias;
  do activated <-
    Py.div 1.0 (1.0 + exp (- Py.max (-500) (Py.min 500 output)));
  Ok (0.5 <? activated).

Definition think (h : Heap) (self : t) (pipes : list PipeData.t)
  : result bool :=
  do closest_pipe <- choose_pipe self pipes;
  decide h self closest_pipe.
End Think.

Definition update (self : t) : t :=
  let self := set_velocity (velocity self + 0.4) self in
  let self := set_y (y self + velocity self) self in
  if Qle_bool (y self) 0 || Qle_bool 580 (y self)
  then set_alive false self
  else self.

Definition flap (self : t) : t := set_velocity (-7.0) self.

(** [copy_brain]: a new list holding the same weights, then a new
    dictionary. *)
Definition copy_brain (h : Heap) (self : t) : result (loc * Heap) :=
  do (w, b) <- get_dict h (brain self);
  do ws <- get_list h w;
  let (wl, h1) := alloc (FloatList ws) h in
  let (bl, h2) := alloc (BrainDict wl b) h1 in
  Ok (bl, h2).
End Bird.

Module Pipe.
Import PipeData.

(** [reset_height]; [gap_size // 2] is [100]. *)
Definition reset_height (self : t) (g : Random.Rng) : t * Random.Rng :=
  let (gap_center, g') := Random.uniform 150 450 g in
  let gap_size := 200%Z in
  (mk (x self) (width self)
      (gap_center - inject_Z (gap_size / 2))
      (gap_center + inject_Z (gap_size / 2)), g').

(** [Pipe(x)] *)
Definition init (x0 : Q) (g : Random.Rng) : t * Random.Rng :=
  reset_height (mk x0 80 0 0) g.

Definition update (self : t) (g : Random.Rng) : t * Random.Rng :=
  let self := mk (x self - 2.5) (width self)
                 (top_height self) (bottom_height self) in
  if x self <? - width self then
    let (u, g1) := Random.uniform 0 100 g in
    let self := mk (800 + u) (width self)
                   (top_height self) (bottom_height self) in
    reset_height self g1
  else (self, g).

Definition collides_with (self : t) (bird : BirdData.t) : bool :=
  let bird_radius := 12 in
  if (x self <? BirdData.x bird + bird_radius)
     && (BirdData.x bird - bird_radius <? x self + width self)
  then
    if (BirdData.y bird - bird_radius <? top_height self)
       || (bottom_height self <? BirdData.y bird + bird_radius)
    then true
    else false
  else false.
End Pipe.

(** Events delivered by [pygame.event.get()]. *)
Inductive Key : Type := K_ESCAPE | K_SPACE | K_r | K_other.
Inductive Event : Type := QUIT | KEYDOWN (key : Key) | OtherEvent.

Module FlappyAI.
Import BirdData.

Record t : Type := mk
  { population_size : nat;
    generation : nat;
    best_score : Q;
    birds : list BirdData.t;
    pipes : list PipeData.t }.

Definition set_birds (v : list BirdData.t) (self : t) : t :=
  mk (population_size self) (generation self) (best_score self)
     v (pipes self).
Definition set_pipes (v : list PipeData.t) (self : t) : t :=
  mk (population_size self) (generation self) (best_score self)
     (birds self) v.

(** [FlappyAI()] *)
Definition init : t := mk 20 0 0.0 [] [].

Definition create_pipes (self : t) (g : Random.Rng) : t * Random.Rng :=
  let (p1, g1) := Pipe.init 400 g in
  let (p2, g2) := Pipe.init 600 g1 in
  let (p3, g3) := Pipe.init 800 g2 in
  (set_pipes [p1; p2; p3] self, g3).

(** [[Bird() for _ in range(n)]] *)
Fixpoint new_birds (n : nat) (h : Heap) (g : Random.Rng)
  : list BirdData.t * Heap * Random.Rng :=
  match n with
  | O => ([], h, g)
  | S n' =>
      let '(b, h1, g1) := Bird.init h g in
      let '(bs, h2, g2) := new_birds n' h1 g1 in
      (b :: bs, h2, g2)
  end.

Definition create_population (self : t) (h : Heap) (g : Random.Rng)
  : t * Heap * Random.Rng :=
  let '(bs, h', g') := new_birds (population_size self) h g in
  (set_birds bs self, h', g').

(** *** [run_generation] *)

Definition max_frames : Z := 1000.

Definition reset_bird (bird : BirdData.t) : BirdData.t :=
  BirdData.mk 100.0 300.0 0.0 true 0 0.0 (brain bird).

Definition quit_requested (events : list Event) : bool :=
  existsb (fun event =>
             match event with
             | QUIT => true
             | KEYDOWN K_ESCAPE => true
             | _ => false
             end) events.

(** [for pipe in self.pipes: pipe.update()] *)
Fixpoint update_pipes (ps : list PipeData.t) (g : Random.Rng)
  : list PipeData.t * Random.Rng :=
  match ps with
  | [] => ([], g)
  | p :: rest =>
      let (p', g1) := Pipe.update p g in
      let (rest', g2) := update_pipes rest g1 in
      (p' :: rest', g2)
  end.

(** [bird.score + frame_count * 0.1] *)
Definition fitness_of (score frame_count : Z) : Q :=
  inject_Z score + inject_Z frame_count * 0.1.

(** The pipe-collision loop of one bird, left at the first hit. *)
Fixpoint check_pipes (frame_count : Z) (ps : list PipeData.t)
         (bird : BirdData.t) : BirdData.t :=
  match ps with
  | [] => bird
  | pipe :: rest =>
      if Pipe.collides_with pipe bird then
        set_fitness (fitness_of (score bird) frame_count)
                    (set_alive false bird)
      else check_pipes frame_count rest bird
  end.

Section Simulation.
Variable exp : Q -> Q.

(** The body of [for bird in alive_birds]. *)
Definition bird_frame (h : Heap) (frame_count : Z)
           (ps : list PipeData.t) (bird : BirdData.t)
  : result BirdData.t :=
  do decision <- Bird.think exp h bird ps;
  let bird := if decision then Bird.flap bird else bird in
  let bird := Bird.update bird in
  if negb (alive bird) then
    Ok (set_fitness (fitness_of (score bird) frame_count) bird)
  else
    let bird := check_pipes frame_count ps bird in
    if alive bird then Ok (set_score (score bird + 1) bird)
    else Ok bird.

(** One pass over [alive_birds], the birds alive when the frame
    began; the others are not visited. *)
Fixpoint update_birds (h : Heap) (frame_count : Z)
         (ps : list PipeData.t) (bs : list BirdData.t)
  : result (list BirdData.t) :=
  match bs with
  | [] => Ok []
  | bird :: rest =>
      do bird' <- (if alive bird then bird_frame h frame_count ps bird
                   else Ok bird);
      do rest' <- update_birds h frame_count ps rest;
      Ok (bird' :: rest')
  end.

(** How the frame loop was left. *)
Inductive LoopExit : Type :=
| UserQuit
| Finished (frame_count : Z) (self : t) (g : Random.Rng).

(** [while frame_count < max_frames], run on the number of frames
    that remain, [max_frames - frame_count]. *)
Fixpoint frame_loop (remaining : nat) (frame_count : Z)
         (events : Z -> list Event) (h : Heap) (self : t)
         (g : Random.Rng) : result LoopExit :=
  match remaining with
  | O => Ok (Finished frame_count self g)
  | S remaining' =>
      if quit_requested (events frame_count) then Ok UserQuit
      else if forallb (fun bird => negb (alive bird)) (birds self)
      then Ok (Finished frame_count self g)
      else
        let (ps, g1) := update_pipes (pipes self) g in
        let self := set_pipes ps self in
        do bs <- update_birds h frame_count ps (birds self);
        frame_loop remaining' (frame_count + 1) events h
                   (set_birds bs self) g1
  end.

(** The pass after the loop, over all of [self.birds]. *)
Definition finalize (frame_count : Z) (bird : BirdData.t)
  : BirdData.t :=
  if alive bird
  then set_fitness (fitness_of (score bird) frame_count) bird
  else bird.

(** [run_generation]: [None] is the user's quit. *)
Definition run_generation (self : t) (events : Z -> list Event)
           (h : Heap) (g : Random.Rng)
  : result (option (list Q * t * Random.Rng)) :=
  let frame_count := 0%Z in
  let self := set_birds (map reset_bird (birds self)) self in
  let (self, g) := create_pipes self g in
  do out <- frame_loop (Z.to_nat (max_frames - frame_count))
                       frame_count events h self g;
  match out with
  | UserQuit => Ok None
  | Finished frame_count self g =>
      let self :=
        set_birds (map (finalize frame_count) (birds self)) self in
      Ok (Some (map fitness (birds self), self, g))
  end.
End Simulation.

(** *** Selection, mutation and replacement *)

(** [pairs.sort(key=lambda x: x[1], reverse=True)].  The library's sort is
    stable, also when reversed, so its result is the one of this insertion
    sort: an entry moves behind the entries that are strictly fitter. *)
Fixpoint insert_desc {A} (p : A * Q) (l : list (A * Q)) : list (A * Q) :=
  match l with
  | [] => [p]
  | q :: l' =>
      if snd p <? snd q then q :: insert_desc p l'
      else p :: q :: l'
  end.

Definition sort_desc {A} (l : list (A * Q)) : list (A * Q) :=
  foldr insert_desc [] l.

Definition tournament_selection
           (bird_fitness_pairs : list (BirdData.t * Q)) (g : Random.Rng)
  : result (BirdData.t * Random.Rng) :=
  let tournament_size := 3%nat in
  do (tournament, g') <-
    Random.sample bird_fitness_pairs
                  (Nat.min tournament_size (length bird_fitness_pairs)) g;
  let tournament := sort_desc tournament in
  do best <- Py.index tournament 0;
  Ok (fst best, g').

(** [brain["weights"][i] = v] and [brain["bias"] = v], in place. *)
Definition set_weight (h : Heap) (brain : loc) (i : nat) (v : Q)
  : result Heap :=
  do (w, _) <- get_dict h brain;
  do ws <- get_list h w;
  if (i <? length ws)%nat then Ok (<[w := FloatList (<[i := v]> ws)]> h)
  else Raise IndexError.

Definition set_bias (h : Heap) (brain : loc) (v : Q) : result Heap :=
  do (w, _) <- get_dict h brain;
  Ok (<[brain := BrainDict w v]> h).

Definition mutation_rate : Q := 0.15.
Definition mutation_strength : Q := 0.3.

(** The body of the loop over the weights of [mutate_brain]. *)
Definition mutate_weight (brain : loc) (i : nat) (h : Heap) (g : Random.Rng)
  : result (Heap * Random.Rng) :=
  let (r, g1) := Random.random g in
  if r <? mutation_rate then
    let (d, g2) := Random.uniform (- mutation_strength) mutation_strength g1 in
    do ws <- brain_weights h brain;
    do w <- Py.index ws i;
    do h1 <- set_weight h brain i (w + d);
    do ws1 <- brain_weights h1 brain;
    do w1 <- Py.index ws1 i;
    do h2 <- set_weight h1 brain i (Py.max (-3.0) (Py.min 3.0 w1));
    Ok (h2, g2)
  else Ok (h, g1).

Fixpoint mutate_weights (brain : loc) (idx : list nat) (h : Heap)
         (g : Random.Rng) : result (Heap * Random.Rng) :=
  match idx with
  | [] => Ok (h, g)
  | i :: rest =>
      do (h1, g1) <- mutate_weight brain i h g;
      mutate_weights brain rest h1 g1
  end.

Definition mutate_bias (brain : loc) (h : Heap) (g : Random.Rng)
  : result (Heap * Random.Rng) :=
  let (r, g1) := Random.random g in
  if r <? mutation_rate then
    let (d, g2) := Random.uniform (- mutation_strength) mutation_strength g1 in
    do b <- brain_bias h brain;
    do h1 <- set_bias h brain (b + d);
    do b1 <- brain_bias h1 brain;
    do h2 <- set_bias h1 brain (Py.max (-3.0) (Py.min 3.0 b1));
    Ok (h2, g2)
  else Ok (h, g1).

Definition mutate_brain (brain : loc) (h : Heap) (g : Random.Rng)
  : result (Heap * Random.Rng) :=
  do ws <- brain_weights h brain;
  do (h1, g1) <- mutate_weights brain (seq 0 (length ws)) h g;
  mutate_bias brain h1 g1.

(** [for i in range(min(3, len(bird_fitness_pairs)))]: the elites. *)
Fixpoint keep_elites (ranked : list (BirdData.t * Q)) (idx : list nat)
         (h : Heap) (g : Random.Rng)
  : result (list BirdData.t * Heap * Random.Rng) :=
  match idx with
  | [] => Ok ([], h, g)
  | i :: rest =>
      do entry <- Py.index ranked i;
      let elite_bird := fst entry in
      let '(new_bird, h1, g1) := Bird.init h g in
      do (bl, h2) <- Bird.copy_brain h1 elite_bird;
      let new_bird := set_brain bl new_bird in
      do (others, h3, g3) <- keep_elites ranked rest h2 g1;
      Ok (new_bird :: others, h3, g3)
  end.

(** [while len(new_birds) < self.population_size], run on the number of
    birds still missing; every turn appends one child. *)
Fixpoint fill_offspring (missing : nat) (ranked : list (BirdData.t * Q))
         (h : Heap) (g : Random.Rng)
  : result (list BirdData.t * Heap * Random.Rng) :=
  match missing with
  | O => Ok ([], h, g)
  | S missing' =>
      do (parent, g1) <- tournament_selection ranked g;
      let '(child, h1, g2) := Bird.init h g1 in
      do (bl, h2) <- Bird.copy_brain h1 parent;
      let child := set_brain bl child in
      do (h3, g3) <- mutate_brain (brain child) h2 g2;
      do (others, h4, g4) <- fill_offspring missing' ranked h3 g3;
      Ok (child :: others, h4, g4)
  end.

Definition create_next_generation (self : t) (fitness_scores : list Q)
           (h : Heap) (g : Random.Rng) : result (t * Heap * Random.Rng) :=
  let bird_fitness_pairs := sort_desc (zip (birds self) fitness_scores) in
  do (elites, h1, g1) <-
    keep_elites bird_fitness_pairs
                (seq 0 (Nat.min 3 (length bird_fitness_pairs))) h g;
  do (children, h2, g2) <-
    fill_offspring (population_size self - length elites)
                   bird_fitness_pairs h1 g1;
  Ok (set_birds (elites ++ children) self, h2, g2).

(** *** [evolve] *)


Section Evolution.
Variable exp : Q -> Q.


End Evolution.

End FlappyAI.

End AI.

(* --------------------------------------------------------------------- *)
(** ** flappy_playable.py                                                 *)
(* --------------------------------------------------------------------- *)

Module Playable.

(** A brain of this program is created once and only read afterwards:
    a plain value.  The colour of a bird is used for drawing only. *)
Record Brain : Type := mkBrain { weights : list Q; bias : Q }.

Module PipeData.
Record t : Type := mk
  { x : Q; width : Q; speed : Q; top_height : Q; bottom_height : Q }.
End PipeData.

Module BirdData.
Record t : Type := mk
  { x : Q; y : Q; velocity : Q; alive : bool; score : Z;
    is_ai : bool; brain : option Brain }.

Definition set_y (v : Q) (b : t) : t :=
  mk (x b) v (velocity b) (alive b) (score b) (is_ai b) (brain b).
Definition set_velocity (v : Q) (b : t) : t :=
  mk (x b) (y b) v (alive b) (score b) (is_ai b) (brain b).
Definition set_alive (v : bool) (b : t) : t :=
  mk (x b) (y b) (velocity b) v (score b) (is_ai b) (brain b).
Definition set_score (v : Z) (b : t) : t :=
  mk (x b) (y b) (velocity b) (alive b) v (is_ai b) (brain b).
End BirdData.

Module Bird.
Import BirdData.

Fixpoint random_weights (n : nat) (g : Random.Rng) : list Q * Random.Rng :=
  match n with
  | O => ([], g)
  | S n' =>
      let (w, g1) := Random.uniform (-1.5) 1.5 g in
      let (ws, g2) := random_weights n' g1 in
      (w :: ws, g2)
  end.

Definition create_random_brain (g : Random.Rng) : Brain * Random.Rng :=
  let (ws, g1) := random_weights 4 g in
  let (b, g2) := Random.uniform (-0.5) 0.5 g1 in
  (mkBrain ws b, g2).

(** [Bird(x, y, color, is_ai)] *)
Definition init (x0 y0 : Q) (ai : bool) (g : Random.Rng) : t * Random.Rng :=
  if ai then
    let (br, g') := create_random_brain g in
    (mk x0 y0 0.0 true 0 true (Some br), g')
  else (mk x0 y0 0.0 true 0 false None, g).

Definition closest_step (self : t) (acc : option PipeData.t * option Q)
           (pipe : PipeData.t) : option PipeData.t * option Q :=
  if x self - 50 <? PipeData.x pipe then
    let distance := Qabs (PipeData.x pipe - x self) in
    match snd acc with
    | None => (Some pipe, Some distance)
    | Some min_distance =>
        if distance <? min_distance then (Some pipe, Some distance)
        else acc
    end
  else acc.

Definition closest (self : t) (pipes : list PipeData.t)
  : option PipeData.t :=
  fst (fold_left (closest_step self) pipes (None, None)).

(** The first half of [think]: the closest pipe ahead, or else
    [pipes[0]]. *)
Definition choose_pipe (self : t) (pipes : list PipeData.t)
  : result PipeData.t :=
  match closest self pipes with
  | Some p => Ok p
  | None => Py.index pipes 0
  end.

Definition inputs (self : t) (closest_pipe : PipeData.t) : list Q :=
  [ y self / 600.0;
    velocity self / 10.0;
    (PipeData.x closest_pipe - x self) / 400.0;
    ((PipeData.top_height closest_pipe
      + PipeData.bottom_height closest_pipe) / 2) / 600.0 ].

(** [self.brain[...]]: subscripting [None] is a [TypeError]. *)
Definition the_brain (self : t) : result Brain :=
  match brain self with
  | Some br => Ok br
  | None => Raise TypeError
  end.

Fixpoint weighted_sum (self : t) (ins : list Q) (idx : list nat)
         (output : Q) : result Q :=
  match idx with
  | [] => Ok output
  | i :: rest =>
      do inp <- Py.index ins i;
      do br <- the_brain self;
      do w <- Py.index (weights br) i;
      weighted_sum self ins rest (output + inp * w)
  end.

Section Think.
(** [math.exp] *)
Variable exp : Q -> Q.

(** The second half of [think]: the network on the chosen pipe. *)
Definition decide (self : t) (closest_pipe : PipeData.t) : result bool :=
  let ins := inputs self closest_pipe in
  do br <- the_brain self;
  do output <- weighted_sum self ins (seq 0 4) (bias br);
  do activated <-
    Py.div 1.0 (1.0 + exp (- Py.max (-500) (Py.min 500 output)));
  Ok (0.5 <? activated).

Definition think (self : t) (pipes : list PipeData.t) : result bool :=
  if negb (is_ai self) then Ok false
  else
    do closest_pipe <- choose_pipe self pipes;
    decide self closest_pipe.
End Think.

Definition update (self : t) : t :=
  let self := set_velocity (velocity self + 0.4) self in
  let self := set_y (y self + velocity self) self in
  if Qle_bool (y self) 0 || Qle_bool 580 (y self)
  then set_alive false self
  else self.

Definition flap (self : t) : t :=
  if alive self then set_velocity (-7.0) self else self.
End Bird.

Module Pipe.
Import PipeData.

(** [reset_height]; [gap_size // 2] is [90]. *)
Definition reset_height (self : t) (g : Random.Rng) : t * Random.Rng :=
  let (gap_center, g') := Random.uniform 180 420 g in
  let gap_size := 180%Z in
  (mk (x self) (width self) (speed self)
      (gap_center - inject_Z (gap_size / 2))
      (gap_center + inject_Z (gap_size / 2)), g').

(** [Pipe(x)] *)
Definition init (x0 : Q) (g : Random.Rng) : t * Random.Rng :=
  reset_height (mk x0 80 2.0 0 0) g.

Definition update (self : t) : t :=
  mk (x self - speed self) (width self) (speed self)
     (top_height self) (bottom_height self).

Definition collides_with (self : t) (bird : BirdData.t) : bool :=
  let bird_radius := 12 in
  if (x self <? BirdData.x bird + bird_radius)
     && (BirdData.x bird - bird_radius <? x self + width self)
  then
    if (BirdData.y bird - bird_radius <? top_height self)
       || (bottom_height self <? BirdData.y bird + bird_radius)
    then true
    else false
  else false.

Definition passed_by (self : t) (bird : BirdData.t) : bool :=
  x self + width self <? BirdData.x bird.
End Pipe.

Inductive Key : Type := K_ESCAPE | K_SPACE | K_r | K_other.
Inductive Event : Type := QUIT | KEYDOWN (key : Key) | OtherEvent.

Module FlappyGame.
Import BirdData.

(** [all_birds] is [[self.human] + self.ai_birds]: the same four objects,
    so the record keeps one copy of each and [all_birds] is a view. *)
Record t : Type := mk
  { pipes : list PipeData.t;
    pipe_spacing : Q;
    game_over : bool;
    human : BirdData.t;
    ai_birds : list BirdData.t }.

Definition all_birds (self : t) : list BirdData.t :=
  human self :: ai_birds self.

Definition set_pipes (v : list PipeData.t) (self : t) : t :=
  mk v (pipe_spacing self) (game_over self) (human self) (ai_birds self).
Definition set_game_over (v : bool) (self : t) : t :=
  mk (pipes self) (pipe_spacing self) v (human self) (ai_birds self).
Definition set_human (v : BirdData.t) (self : t) : t :=
  mk (pipes self) (pipe_spacing self) (game_over self) v (ai_birds self).
Definition set_all_birds (v : list BirdData.t) (self : t) : t :=
  match v with
  | hb :: ais =>
      mk (pipes self) (pipe_spacing self) (game_over self) hb ais
  | [] => self
  end.

Definition create_initial_pipes (self : t) (g : Random.Rng)
  : t * Random.Rng :=
  let (p1, g1) := Pipe.init 400 g in
  let (p2, g2) := Pipe.init 600 g1 in
  let (p3, g3) := Pipe.init 800 g2 in
  (set_pipes [p1; p2; p3] self, g3).

(** The players of [__init__] and of [restart_game]. *)
Definition create_players (g : Random.Rng)
  : BirdData.t * list BirdData.t * Random.Rng :=
  let (hb, g0) := Bird.init 100 250 false g in
  let (a1, g1) := Bird.init 100 300 true g0 in
  let (a2, g2) := Bird.init 100 350 true g1 in
  let (a3, g3) := Bird.init 100 200 true g2 in
  (hb, [a1; a2; a3], g3).

(** [FlappyGame()] *)
Definition init (g : Random.Rng) : t * Random.Rng :=
  let '(hb, ais, g1) := create_players g in
  create_initial_pipes (mk [] 200 false hb ais) g1.

Definition restart_game (self : t) (g : Random.Rng) : t * Random.Rng :=
  let self := set_game_over false self in
  let '(hb, ais, g1) := create_players g in
  let self := mk (pipes self) (pipe_spacing self) (game_over self) hb ais in
  create_initial_pipes self g1.

(** [handle_events]: the boolean is the returned [running]. *)
Fixpoint handle_events (events : list Event) (self : t) (g : Random.Rng)
  : bool * t * Random.Rng :=
  match events with
  | [] => (true, self, g)
  | event :: rest =>
      match event with
      | QUIT => (false, self, g)
      | KEYDOWN K_SPACE =>
          handle_events rest (set_human (Bird.flap (human self)) self) g
      | KEYDOWN K_ESCAPE => (false, self, g)
      | KEYDOWN K_r =>
          if game_over self then
            let (self', g') := restart_game self g in
            handle_events rest self' g'
          else handle_events rest self g
      | _ => handle_events rest self g
      end
  end.

Definition update_pipes (self : t) (g : Random.Rng) : t * Random.Rng :=
  let ps := map Pipe.update (pipes self) in
  let ps :=
    List.filter (fun pipe => - PipeData.width pipe <? PipeData.x pipe) ps in
  if (length ps <? 4)%nat
     && match last ps with
        | None => true
        | Some lp => PipeData.x lp <? 600
        end
  then
    let new_x := match last ps with
                 | Some lp => PipeData.x lp + pipe_spacing self
                 | None => 400
                 end in
    let (np, g') := Pipe.init new_x g in
    (set_pipes (ps ++ [np]) self, g')
  else (set_pipes ps self, g).

(** The collision loop, left at the first hit. *)
Fixpoint check_pipes (ps : list PipeData.t) (bird : BirdData.t)
  : BirdData.t :=
  match ps with
  | [] => bird
  | pipe :: rest =>
      if Pipe.collides_with pipe bird then set_alive false bird
      else check_pipes rest bird
  end.

(** The scoring loop, left at the first pipe that counts. *)
Fixpoint score_pipes (ps : list PipeData.t) (bird : BirdData.t)
  : BirdData.t :=
  match ps with
  | [] => bird
  | pipe :: rest =>
      if Pipe.passed_by pipe bird
         && (PipeData.x pipe + PipeData.width pipe <? x bird - 5)
      then set_score (score bird + 1) bird
      else score_pipes rest bird
  end.

Section Game.
Variable exp : Q -> Q.

(** The body of [for bird in self.all_birds], for a bird that is alive. *)
Definition bird_frame (ps : list PipeData.t) (bird : BirdData.t)
  : result BirdData.t :=
  do decision <- (if is_ai bird then Bird.think exp bird ps else Ok false);
  let bird := if decision then Bird.flap bird else bird in
  let bird := Bird.update bird in
  let bird := check_pipes ps bird in
  if alive bird then Ok (score_pipes ps bird) else Ok bird.

(** The loop over [all_birds]; the number is [alive_count]. *)
Fixpoint birds_loop (ps : list PipeData.t) (bs : list BirdData.t)
         (alive_count : nat) : result (list BirdData.t * nat) :=
  match bs with
  | [] => Ok ([], alive_count)
  | bird :: rest =>
      if negb (alive bird) then
        do (rest', n) <- birds_loop ps rest alive_count;
        Ok (bird :: rest', n)
      else
        do bird' <- bird_frame ps bird;
        do (rest', n) <- birds_loop ps rest (S alive_count);
        Ok (bird' :: rest', n)
  end.

(** [end_game]; the winner's banner is presentation. *)
Definition end_game (self : t) : t := set_game_over true self.

Definition update_birds (self : t) : result t :=
  do (bs, alive_count) <- birds_loop (pipes self) (all_birds self) 0;
  let self := set_all_birds bs self in
  if (alive_count =? 0)%nat then Ok (end_game self) else Ok self.

(** One turn of the loop of [run]. *)
Definition tick (events : list Event) (self : t) (g : Random.Rng)
  : result (bool * t * Random.Rng) :=
  let '(running, self, g) := handle_events events self g in
  if negb (game_over self) then
    let (self, g) := update_pipes self g in
    do self <- update_birds self;
    Ok (running, self, g)
  else Ok (running, self, g).

(** [while running]: the loop fed with the events of its first turns. *)
Fixpoint run (turns : list (list Event)) (self : t) (g : Random.Rng)
  : result (bool * t * Random.Rng) :=
  match turns with
  | [] => Ok (true, self, g)
  | events :: later =>
      do (running, self', g') <- tick events self g;
      if running then run later self' g' else Ok (false, self', g')
  end.
End Game.

End FlappyGame.

End Playable.

(* --------------------------------------------------------------------- *)
(** ** The specification's geometry, and sample inputs                    *)
(* --------------------------------------------------------------------- *)

(** Two closed extents [[a, b]] and [[c, d]] meet when they share a point;
    they overlap properly when they share more than a boundary point. *)
Definition extents_meet (a b c d : Q) : Prop :=
  exists t, (a <= t /\ t <= b) /\ (c <= t /\ t <= d).

Definition extents_overlap (a b c d : Q) : Prop :=
  exists t, (a < t /\ t < b) /\ (c < t /\ t < d).

(** What the store holds for a bird of the evolutionary variant: its brain
    is a dictionary whose weights are a list ([brain_ok]), of four numbers
    ([brain_ready]), all of them and the bias zero ([zero_brain]). *)
Definition brain_ok (h : Heap) (b : AI.BirdData.t) : Prop :=
  exists wl bias ws,
    h !! AI.BirdData.brain b = Some (BrainDict wl bias)
    /\ h !! wl = Some (FloatList ws).

Definition brain_ready (h : Heap) (b : AI.BirdData.t) : Prop :=
  exists wl bias ws,
    h !! AI.BirdData.brain b = Some (BrainDict wl bias)
    /\ h !! wl = Some (FloatList ws)
    /\ length ws = 4%nat.

Definition zero_brain (h : Heap) (b : AI.BirdData.t) : Prop :=
  exists wl bias ws,
    h !! AI.BirdData.brain b = Some (BrainDict wl bias)
    /\ h !! wl = Some (FloatList ws)
    /\ length ws = 4%nat
    /\ Forall (fun w => w == 0) ws
    /\ bias == 0.

(** The range the mutation clamps to, and what one mutation may do to a
    weight or to the bias: leave it, or add a number of [[-0.3, 0.3]] and
    clamp the sum. *)
Definition in_range (w : Q) : Prop := -3.0 <= w /\ w <= 3.0.

Definition perturbed (w w' : Q) : Prop :=
  w' = w
  \/ exists d, (-0.3 <= d /\ d <= 0.3)
               /\ w' = Py.max (-3.0) (Py.min 3.0 (w + d)).

(** The weights and the bias that a bird's brain holds in a store, and the
    addresses the brain occupies there. *)
Definition brain_value (h : Heap) (b : AI.BirdData.t) : option (list Q * Q) :=
  match h !! AI.BirdData.brain b with
  | Some (BrainDict wl bias) =>
      match h !! wl with
      | Some (FloatList ws) => Some (ws, bias)
      | _ => None
      end
  | _ => None
  end.

Definition brain_cells (h : Heap) (b : AI.BirdData.t) : list loc :=
  match h !! AI.BirdData.brain b with
  | Some (BrainDict wl _) => [AI.BirdData.brain b; wl]
  | _ => [AI.BirdData.brain b]
  end.

(** The block of four objects one new bird adds to the store: the list and
    the dictionary of [Bird()], then the list and the dictionary of the
    brain it keeps. *)
Definition block_ok (base : nat) (ext : Heap) (k : nat) (b : AI.BirdData.t)
           (ws : list Q) (bias : Q) : Prop :=
  AI.BirdData.brain b = (base + (4 * k + 3))%nat
  /\ ext !! (4 * k + 3)%nat = Some (BrainDict (base + (4 * k + 2)) bias)
  /\ ext !! (4 * k + 2)%nat = Some (FloatList ws).

(** What holds of a bird of the evolutionary variant while frame number
    [f] of a generation is about to run: its score counts the frames it has
    survived; a live bird has survived them all; a dead bird has its
    fitness. *)
Definition frame_inv (f : Z) (b : AI.BirdData.t) : Prop :=
  (0 <= AI.BirdData.score b <= f)%Z
  /\ (AI.BirdData.alive b = true -> AI.BirdData.score b = f)
  /\ (AI.BirdData.alive b = false ->
      AI.BirdData.fitness b
      = AI.FlappyAI.fitness_of (AI.BirdData.score b) (AI.BirdData.score b)).


(** A well-formed pipe of the playable variant: width 80, speed 2, on the
    screen, a gap 180 high between the heights 90 and 510. *)
Definition playable_pipe_ok (p : Playable.PipeData.t) : Prop :=
  Playable.PipeData.width p == 80
  /\ Playable.PipeData.speed p == 2
  /\ - (80) < Playable.PipeData.x p
  /\ Playable.PipeData.bottom_height p - Playable.PipeData.top_height p
     == 180
  /\ 90 <= Playable.PipeData.top_height p
  /\ Playable.PipeData.bottom_height p <= 510.

(** A game of the playable variant in good order: between one and four
    well-formed pipes, the spacing of 200, and a brain of four weights for
    every AI bird. *)
Definition playable_bird_ok (b : Playable.BirdData.t) : Prop :=
  Playable.BirdData.is_ai b = true ->
  exists br, Playable.BirdData.brain b = Some br
             /\ length (Playable.weights br) = 4%nat.

Definition game_ok (game : Playable.FlappyGame.t) : Prop :=
  Playable.FlappyGame.pipes game <> []
  /\ (length (Playable.FlappyGame.pipes game) <= 4)%nat
  /\ Forall playable_pipe_ok (Playable.FlappyGame.pipes game)
  /\ Playable.FlappyGame.pipe_spacing game == 200
  /\ Forall playable_bird_ok (Playable.FlappyGame.all_birds game).

(** How one frame may change a bird of the playable variant: a dead bird
    not at all; a live bird keeps its place, its kind and its brain, and
    its score stays or goes up by one. *)
Definition playable_step (b b' : Playable.BirdData.t) : Prop :=
  Playable.BirdData.x b' = Playable.BirdData.x b
  /\ Playable.BirdData.is_ai b' = Playable.BirdData.is_ai b
  /\ Playable.BirdData.brain b' = Playable.BirdData.brain b
  /\ (Playable.BirdData.score b <= Playable.BirdData.score b'
      <= Playable.BirdData.score b + 1)%Z
  /\ (Playable.BirdData.alive b = false -> b' = b).

(** The events that end the loop of the playable game. *)
Definition stops_game (event : Playable.Event) : bool :=
  match event with
  | Playable.QUIT => true
  | Playable.KEYDOWN Playable.K_ESCAPE => true
  | _ => false
  end.

(** A brain the program can evaluate and mutate for ever: four weights,
    and they and the bias within the clamp range. *)
Definition brain_ranged (h : Heap) (b : AI.BirdData.t) : Prop :=
  exists ws bias,
    brain_value h b = Some (ws, bias)
    /\ length ws = 4%nat
    /\ Forall in_range ws
    /\ in_range bias.


(** A pipe [think] counts as ahead of a bird, and its distance. *)
Definition pipe_ahead (b : AI.BirdData.t) (p : AI.PipeData.t) : Prop :=
  AI.BirdData.x b - 50 < AI.PipeData.x p.

Definition pipe_distance (b : AI.BirdData.t) (p : AI.PipeData.t) : Q :=
  Qabs (AI.PipeData.x p - AI.BirdData.x b).

(** What the search loop holds after the pipes [seen]. *)
Definition closest_inv (self : AI.BirdData.t) (seen : list AI.PipeData.t)
           (acc : option AI.PipeData.t * option Q) : Prop :=
  (acc = (None, None)
   /\ Forall (fun p => AI.PipeData.x p <= AI.BirdData.x self - 50) seen)
  \/ exists i q,
       acc = (Some q, Some (pipe_distance self q))
       /\ seen !! i = Some q
       /\ pipe_ahead self q
       /\ forall j p, seen !! j = Some p -> pipe_ahead self p ->
            pipe_distance self q <= pipe_distance self p
            /\ ((j < i)%nat -> pipe_distance self q < pipe_distance self p).


Module Samples.

(** A rational stand-in for [math.exp]: positive everywhere, [1] at [0],
    increasing. *)
Definition exp_approx (q : Q) : Q :=
  if Qle_bool 0 q then 1 + q else 1 / (1 - q).

(** A generator that always outputs [w]. *)
Definition const_rng (w : Z) : Random.Rng := Random.mkRng (fun _ => w) 0.

(** A live bird of the evolutionary variant at height [y0] with velocity
    [v0], and a pipe. *)
Definition bird_at (y0 v0 : Q) : AI.BirdData.t :=
  AI.BirdData.mk 100.0 y0 v0 true 0 0.0 1%nat.

(** A store with one brain, at address 1, whose weights (at address 0)
    and bias are all zero. *)
Definition zero_heap : Heap := [FloatList [0; 0; 0; 0]; BrainDict 0%nat 0].

(** The same store with a first weight of 5. *)
Definition wide_heap : Heap := [FloatList [5; 0; 0; 0]; BrainDict 0%nat 0].

(** The store an operation ends with, when it does not raise. *)
Definition heap_of (r : result (Heap * Random.Rng)) : option Heap :=
  match r with
  | Ok (h, _) => Some h
  | Raise _ => None
  end.

Definition pipe_at (x0 top bottom : Q) : AI.PipeData.t :=
  AI.PipeData.mk x0 80 top bottom.


(** A generator whose every raw output is [2^51]: every [random()] is
    1/4. *)
Definition rng0 : Random.Rng := const_rng (2 ^ 51).

(** A game of the playable variant in progress: the first pipe has come to
    x = 16, the human's bird is at height 197.2 with velocity 1.8 and has
    scored nothing yet, the three AI birds are dead.  (With the generator
    [rng0] and SPACE pressed on every 34th turn, this is where a game
    stands after 192 turns of its loop.) *)
Definition ai_brain : Playable.Brain :=
  Playable.mkBrain [-0.75; -0.75; -0.75; -0.75] (-0.25).

Definition mid_game : Playable.FlappyGame.t :=
  Playable.FlappyGame.mk
    [Playable.PipeData.mk 16 80 2.0 150 330;
     Playable.PipeData.mk 216 80 2.0 150 330;
     Playable.PipeData.mk 416 80 2.0 150 330;
     Playable.PipeData.mk 616 80 2.0 150 330]
    200 false
    (Playable.BirdData.mk 100 197.2 1.8 true 0 false None)
    [Playable.BirdData.mk 100 581.2 14.8 false 0 true (Some ai_brain);
     Playable.BirdData.mk 100 588 13.6 false 0 true (Some ai_brain);
     Playable.BirdData.mk 100 596 17.6 false 0 true (Some ai_brain)].

(** The human presses SPACE on every 34th turn of the loop. *)
Definition human_flaps (turn : nat) : list Playable.Event :=
  if (turn mod 34 =? 0)%nat then [Playable.KEYDOWN Playable.K_SPACE] else [].

(** The game [mid_game] played on for [turns] more turns, from turn 192. *)
Definition resume (turns : nat)
  : result (bool * Playable.FlappyGame.t * Random.Rng) :=
  Playable.FlappyGame.run exp_approx (map human_flaps (seq 192 turns))
                          mid_game (Random.mkRng (Random.words rng0) 19).

(** What is read off a game: whether the human's bird is alive, its score,
    and where the pipes are. *)
Definition report (r : result (bool * Playable.FlappyGame.t * Random.Rng))
  : option (bool * Z * list Q) :=
  match r with
  | Ok (_, game, _) =>
      Some (Playable.BirdData.alive (Playable.FlappyGame.human game),
            Playable.BirdData.score (Playable.FlappyGame.human game),
            map (fun p => Qred (Playable.PipeData.x p))
                (Playable.FlappyGame.pipes game))
  | Raise _ => None
  end.

(** A first population of the evolutionary program, with the fitness
    values 0, 1.1, 2.2, ... *)
Definition population0 : AI.FlappyAI.t * Heap * Random.Rng :=
  AI.FlappyAI.create_population AI.FlappyAI.init [] rng0.

Definition fitness0 : list Q :=
  map (fun i => inject_Z (Z.of_nat i) * 1.1) (seq 0 20).

(** A population of one bird with the all-zero brain of [zero_heap], and a
    run with no events. *)
Definition lone_bird : AI.FlappyAI.t :=
  AI.FlappyAI.mk 1 1 0.0 [bird_at 300.0 0.0] [].

Definition no_events (frame : Z) : list AI.Event := [].

End Samples.

(* ===================================================================== *)
(** * Part II: properties                                                 *)
(* ===================================================================== *)

(** ** Comparisons and clamping *)

Lemma ltb_true (a b : Q) : (a <? b) = true <-> a < b.
Proof.
  unfold Py.ltb. destruct (Qlt_le_dec a b) as [H|H]; split; intro K;
    try reflexivity; try assumption; try discriminate.
  exfalso. apply (Qlt_not_le _ _ K H).
Qed.

Lemma ltb_false (a b : Q) : (a <? b) = false <-> b <= a.
Proof.
  unfold Py.ltb. destruct (Qlt_le_dec a b) as [H|H]; split; intro K;
    try reflexivity; try assumption; try discriminate.
  exfalso. apply (Qlt_not_le _ _ H K).
Qed.

Lemma ltb_cases (a b : Q) :
  (a < b /\ (a <? b) = true) \/ (b <= a /\ (a <? b) = false).
Proof.
  destruct (a <? b) eqn:E.
  - left. split; [now apply ltb_true|reflexivity].
  - right. split; [now apply ltb_false|reflexivity].
Qed.

Lemma clamp_range (lo hi v : Q) :
  lo <= hi -> lo <= Py.max lo (Py.min hi v) /\ Py.max lo (Py.min hi v) <= hi.
Proof.
  intros Hlh. unfold Py.max, Py.min.
  destruct (ltb_cases v hi) as [[H1 ->]|[H1 ->]];
    [destruct (ltb_cases lo v) as [[H2 ->]|[H2 ->]]
    |destruct (ltb_cases lo hi) as [[H2 ->]|[H2 ->]]]; lra.
Qed.

Lemma clamp_id (lo hi v : Q) :
  lo <= v -> v <= hi -> Py.max lo (Py.min hi v) == v.
Proof.
  intros H1 H2. unfold Py.max, Py.min.
  destruct (ltb_cases v hi) as [[H3 ->]|[H3 ->]];
    [destruct (ltb_cases lo v) as [[H4 ->]|[H4 ->]]
    |destruct (ltb_cases lo hi) as [[H4 ->]|[H4 ->]]]; lra.
Qed.

(** ** Physics: [Bird.update] and [Bird.flap] *)

Section Physics.
Import AI.BirdData AI.Bird.

(** C2, as stated, fails: a bird at height 300 with velocity 0 ends one
    update at height 300.4, not at [300 + 0]: gravity reaches the velocity
    before the velocity reaches the position. *)
Lemma update_moves_by_new_velocity :
  y (update (Samples.bird_at 300 0)) == 300.4
  /\ y (Samples.bird_at 300 0) + velocity (Samples.bird_at 300 0) == 300
  /\ ~ y (update (Samples.bird_at 300 0))
       == y (Samples.bird_at 300 0) + velocity (Samples.bird_at 300 0).
Proof.
  repeat split; try reflexivity. intro H. vm_compute in H. discriminate.
Qed.

(** C2, amended: one update adds the gravity 0.4 to the velocity and then
    adds the new velocity to the height, so the height moves by
    [velocity + 0.4]; a flap sets the velocity to -7.0 whatever it was, and
    the update of the same frame then starts from -7.0. *)
Theorem update_physics (b : t) :
  velocity (update b) = velocity b + 0.4
  /\ y (update b) = y b + (velocity b + 0.4)
  /\ velocity (flap b) = -7.0
  /\ y (flap b) = y b
  /\ velocity (update (flap b)) == -6.6
  /\ y (update (flap b)) == y b - 6.6.
Proof.
  assert (U : forall c, velocity (update c) = velocity c + 0.4
                        /\ y (update c) = y c + (velocity c + 0.4)).
  { intro c. unfold update. cbn.
    destruct (Qle_bool _ _ || Qle_bool _ _); cbn; split; reflexivity. }
  destruct (U b) as [Uv Uy]. destruct (U (flap b)) as [Fv Fy].
  repeat split; try assumption; try reflexivity.
  - rewrite Fv. reflexivity.
  - rewrite Fy. cbn. lra.
Qed.

(** C3, as stated, fails: a bird at height 0.0 with velocity 0 is alive
    after one update (it is then at height 0.4). *)
Lemma update_spares_resting_bird_at_top :
  y (Samples.bird_at 0.0 0) == 0
  /\ velocity (Samples.bird_at 0.0 0) <= 0
  /\ alive (update (Samples.bird_at 0.0 0)) = true
  /\ y (update (Samples.bird_at 0.0 0)) == 0.4.
Proof. repeat split; try reflexivity. vm_compute. discriminate. Qed.

Lemma update_alive (b : t) :
  alive (update b) = true
  <-> alive b = true /\ 0 < y (update b) /\ y (update b) < 580.
Proof.
  destruct (update_physics b) as (_ & Uy & _). rewrite Uy.
  unfold update. cbn.
  destruct (Qle_bool (y b + (velocity b + 0.4)) 0) eqn:E1; cbn.
  - apply Qle_bool_iff in E1. split; [discriminate|]. intros (_ & H & _). lra.
  - destruct (Qle_bool 580 (y b + (velocity b + 0.4))) eqn:E2; cbn.
    + apply Qle_bool_iff in E2. split; [discriminate|]. intros (_ & _ & H).
      lra.
    + assert (N1 : ~ y b + (velocity b + 0.4) <= 0)
        by (intro K; apply Qle_bool_iff in K; congruence).
      assert (N2 : ~ 580 <= y b + (velocity b + 0.4))
        by (intro K; apply Qle_bool_iff in K; congruence).
      split.
      * intro A. split; [exact A|]. split; lra.
      * intros (A & _). exact A.
Qed.

(** C3, amended: from height 0.0 one update kills a bird whose velocity is
    at most -0.4 (the gravity is added first); from height 579.9 it kills
    a bird whose velocity is at least 0.1; and a bird is alive after an
    update exactly when it was alive and its new height is strictly between
    0 and 580, so a height outside [[0, 580]] always means death. *)
Theorem update_bounds (b : t) :
  (y b == 0 -> velocity b <= -0.4 -> alive (update b) = false)
  /\ (y b == 579.9 -> 0.1 <= velocity b -> alive (update b) = false)
  /\ (alive (update b) = true
      <-> alive b = true /\ 0 < y (update b) /\ y (update b) < 580)
  /\ (y (update b) < 0 \/ 580 < y (update b) -> alive (update b) = false).
Proof.
  pose proof (update_alive b) as A.
  destruct (update_physics b) as (_ & Uy & _).
  split; [|split; [|split]].
  - intros Hy Hv. apply not_true_is_false. intro K. apply A in K.
    rewrite Uy in K. lra.
  - intros Hy Hv. apply not_true_is_false. intro K. apply A in K.
    rewrite Uy in K. lra.
  - exact A.
  - intros H. apply not_true_is_false. intro K. apply A in K. lra.
Qed.

Lemma update_bounds_witness :
  alive (update (Samples.bird_at 0.0 (-0.4))) = false
  /\ alive (update (Samples.bird_at 579.9 0.1)) = false.
Proof.
  split.
  - apply (proj1 (update_bounds (Samples.bird_at 0.0 (-0.4)))).
    + reflexivity.
    + vm_compute. discriminate.
  - apply (proj1 (proj2 (update_bounds (Samples.bird_at 579.9 0.1)))).
    + reflexivity.
    + vm_compute. discriminate.
Defined.

End Physics.

(** ** Collision: [Pipe.collides_with] *)

Section Collision.
Import AI.PipeData.

(** The test in the words of its conditions. *)
Lemma collides_with_true (p : t) (b : AI.BirdData.t) :
  AI.Pipe.collides_with p b = true
  <-> (x p < AI.BirdData.x b + 12 /\ AI.BirdData.x b - 12 < x p + width p)
      /\ (AI.BirdData.y b - 12 < top_height p
          \/ bottom_height p < AI.BirdData.y b + 12).
Proof.
  unfold AI.Pipe.collides_with.
  destruct (ltb_cases (x p) (AI.BirdData.x b + 12)) as [[H1 ->]|[H1 ->]];
  destruct (ltb_cases (AI.BirdData.x b - 12) (x p + width p))
    as [[H2 ->]|[H2 ->]];
  destruct (ltb_cases (AI.BirdData.y b - 12) (top_height p))
    as [[H3 ->]|[H3 ->]];
  destruct (ltb_cases (bottom_height p) (AI.BirdData.y b + 12))
    as [[H4 ->]|[H4 ->]];
  cbn; split; intro K; try reflexivity; try discriminate;
    try (split; [split|]; first [assumption | left; assumption
                                | right; assumption]);
    exfalso; destruct K as [[K1 K2] [K3|K3]]; lra.
Qed.

Lemma overlap_iff (a b c d : Q) :
  a < b -> c < d -> (extents_overlap a b c d <-> c < b /\ a < d).
Proof.
  intros Hab Hcd. split.
  - intros (t & (H1 & H2) & (H3 & H4)). split; lra.
  - intros [H1 H2].
    destruct (Qlt_le_dec a c) as [Hac|Hac];
      destruct (Qlt_le_dec b d) as [Hbd|Hbd].
    + exists ((c + b) * (1 # 2)). repeat split; lra.
    + exists ((c + d) * (1 # 2)). repeat split; lra.
    + exists ((a + b) * (1 # 2)). repeat split; lra.
    + exists ((a + d) * (1 # 2)). repeat split; lra.
Qed.

(** C5, as stated, fails where the extents only touch: the bird's extent
    [[88, 112]] and the pipe's extent [[112, 192]] share the point 112 and
    the bird reaches above the gap (288 < 310), yet no collision is
    reported. *)
Lemma touching_extents_do_not_collide :
  extents_meet (100 - 12) (100 + 12) 112 (112 + 80)
  /\ AI.BirdData.y (Samples.bird_at 300 0) - 12 < 310
  /\ AI.BirdData.x (Samples.bird_at 300 0) == 100
  /\ AI.Pipe.collides_with (Samples.pipe_at 112 310 500)
                           (Samples.bird_at 300 0) = false.
Proof.
  split; [|repeat split].
  exists 112. repeat split; vm_compute; discriminate.
Qed.

(** C5, amended: for a pipe of positive width (every pipe has width 80)
    the test returns true exactly when the bird's horizontal extent
    [[x-12, x+12]] and the pipe's [[x, x+width]] share more than a boundary
    point and the bird's vertical extent reaches strictly above [gap_top] or
    strictly below [gap_bottom]; a bird at height 300 in front of a pipe at
    its own [x] does not collide with the gap 100..500 and collides with
    the gap 310..500. *)
Theorem collides_with_spec (p : t) (b : AI.BirdData.t) (x0 v0 : Q) :
  (0 < width p ->
   (AI.Pipe.collides_with p b = true
    <-> extents_overlap (AI.BirdData.x b - 12) (AI.BirdData.x b + 12)
                        (x p) (x p + width p)
        /\ (AI.BirdData.y b - 12 < top_height p
            \/ bottom_height p < AI.BirdData.y b + 12)))
  /\ AI.Pipe.collides_with
       (mk x0 80 100 500) (AI.BirdData.mk x0 300 v0 true 0 0 0%nat) = false
  /\ AI.Pipe.collides_with
       (mk x0 80 310 500) (AI.BirdData.mk x0 300 v0 true 0 0 0%nat) = true.
Proof.
  split; [|split].
  - intro W. rewrite collides_with_true, overlap_iff by lra. tauto.
  - apply not_true_is_false. rewrite collides_with_true. cbn.
    intros [_ [K|K]]; lra.
  - apply collides_with_true. cbn. split; [split|left]; lra.
Qed.

Lemma collides_with_spec_witness :
  AI.Pipe.collides_with (Samples.pipe_at 100 310 500)
                        (Samples.bird_at 300 0) = true.
Proof.
  apply (proj1 (collides_with_spec (Samples.pipe_at 100 310 500)
                                   (Samples.bird_at 300 0) 0 0)).
  - vm_compute. reflexivity.
  - split.
    + exists 106. repeat split; vm_compute; reflexivity.
    + left. vm_compute. reflexivity.
Defined.

End Collision.

(** ** The decision function: [Bird.think] *)

Section Decision.
Import AI.BirdData AI.Bird.

Variable exp : Q -> Q.

Lemma closest_step_acc (self : t) (acc : option AI.PipeData.t * option Q)
      (p : AI.PipeData.t) :
  closest_step self acc p = acc
  \/ (fst (closest_step self acc p) = Some p
      /\ x self - 50 < AI.PipeData.x p).
Proof.
  unfold closest_step.
  destruct (ltb_cases (x self - 50) (AI.PipeData.x p)) as [[H ->]|[H ->]];
    [|now left].
  destruct (snd acc) as [m|]; [|now right].
  destruct (_ <? m); [now right|now left].
Qed.

Lemma closest_from (self : t) (ps : list AI.PipeData.t)
      (acc : option AI.PipeData.t * option Q) :
  fst (fold_left (closest_step self) ps acc) = fst acc
  \/ exists p, fst (fold_left (closest_step self) ps acc) = Some p
               /\ In p ps /\ x self - 50 < AI.PipeData.x p.
Proof.
  revert acc. induction ps as [|p ps IH]; intro acc; cbn; [now left|].
  destruct (IH (closest_step self acc p)) as [E|(q & E & I & L)].
  - destruct (closest_step_acc self acc p) as [K|[K L]].
    + left. now rewrite E, K.
    + right. exists p. rewrite E. auto.
  - right. exists q. auto.
Qed.

(** The pipe [think] works with is a pipe of the list: the closest one
    ahead or, when none is ahead, the first. *)
Lemma choose_pipe_cons (self : t) (p : AI.PipeData.t)
      (ps : list AI.PipeData.t) :
  exists q, choose_pipe self (p :: ps) = Ok q /\ In q (p :: ps).
Proof.
  unfold choose_pipe, closest.
  destruct (closest_from self (p :: ps) (None, None)) as [E|(q & E & I & _)].
  - rewrite E. cbn [fst]. exists p. split; [reflexivity|now left].
  - rewrite E. exists q. auto.
Qed.

Lemma closest_none_behind (self : t) (ps : list AI.PipeData.t)
      (acc : option AI.PipeData.t * option Q) :
  Forall (fun p => AI.PipeData.x p <= x self - 50) ps ->
  fold_left (closest_step self) ps acc = acc.
Proof.
  induction 1 as [|p ps Hp _ IH]; cbn; [reflexivity|].
  unfold closest_step at 2. apply ltb_false in Hp. rewrite Hp. exact IH.
Qed.

Lemma choose_pipe_fallback (self : t) (ps : list AI.PipeData.t) :
  Forall (fun p => AI.PipeData.x p <= x self - 50) ps ->
  choose_pipe self ps = Py.index ps 0.
Proof.
  intro H. unfold choose_pipe, closest.
  now rewrite closest_none_behind.
Qed.

Lemma weighted_sum_four (h : Heap) (self : t) (i0 i1 i2 i3 : Q) (wl : loc)
      (bias0 w0 w1 w2 w3 out : Q) :
  h !! brain self = Some (BrainDict wl bias0) ->
  h !! wl = Some (FloatList [w0; w1; w2; w3]) ->
  weighted_sum h (brain self) [i0; i1; i2; i3] (seq 0 4) out
  = Ok (out + i0 * w0 + i1 * w1 + i2 * w2 + i3 * w3).
Proof.
  intros Hd Hl. cbn. unfold brain_weights, get_dict, get_list.
  rewrite Hd. cbn. rewrite Hl. cbn. reflexivity.
Qed.

Lemma decide_ready (h : Heap) (self : t) (p : AI.PipeData.t) :
  brain_ready h self ->
  exists output,
    decide exp h self p
    = do activated <-
        Py.div 1.0 (1.0 + exp (- Py.max (-500) (Py.min 500 output)));
      Ok (0.5 <? activated).
Proof.
  intros (wl & b0 & ws & Hd & Hl & Hn).
  destruct ws as [|w0 [|w1 [|w2 [|w3 [|]]]]]; try discriminate.
  unfold decide, inputs, brain_bias, get_dict. rewrite Hd. cbn -[seq].
  rewrite (weighted_sum_four _ _ _ _ _ _ _ _ _ _ _ _ _ Hd Hl). cbn.
  eexists. reflexivity.
Qed.

Lemma decide_zero (h : Heap) (self : t) (p : AI.PipeData.t) :
  (forall q, q == 0 -> exp q == 1) ->
  zero_brain h self -> decide exp h self p = Ok false.
Proof.
  intros exp_zero (wl & b0 & ws & Hd & Hl & Hn & Hz & Hb).
  destruct ws as [|w0 [|w1 [|w2 [|w3 [|]]]]]; try discriminate.
  inversion Hz as [|? ? Z0 Hz1]; subst.
  inversion Hz1 as [|? ? Z1 Hz2]; subst.
  inversion Hz2 as [|? ? Z2 Hz3]; subst.
  inversion Hz3 as [|? ? Z3 _]; subst.
  unfold decide, inputs, brain_bias, get_dict. rewrite Hd. cbn -[seq].
  rewrite (weighted_sum_four _ _ _ _ _ _ _ _ _ _ _ _ _ Hd Hl). cbn.
  match goal with
  | |- context [Py.min 500 ?o] => set (output := o)
  end.
  assert (O : output == 0) by (subst output; rewrite Z0, Z1, Z2, Z3, Hb; ring).
  assert (C : Py.max (-500) (Py.min 500 output) == 0).
  { rewrite clamp_id; [exact O| |]; rewrite O; vm_compute; discriminate. }
  assert (E : exp (- Py.max (-500) (Py.min 500 output)) == 1).
  { apply exp_zero. rewrite C. reflexivity. }
  unfold Py.div.
  destruct (Qeq_bool _ 0) eqn:D.
  - apply Qeq_bool_iff in D. rewrite E in D. vm_compute in D. discriminate.
  - cbn. f_equal. apply ltb_false. rewrite E. vm_compute. discriminate.
Qed.

End Decision.

Section DecisionPlayable.
Import Playable.BirdData Playable.Bird.

Variable exp : Q -> Q.

Lemma closest_step_acc_playable (self : t)
      (acc : option Playable.PipeData.t * option Q)
      (p : Playable.PipeData.t) :
  closest_step self acc p = acc
  \/ (fst (closest_step self acc p) = Some p
      /\ x self - 50 < Playable.PipeData.x p).
Proof.
  unfold closest_step.
  destruct (ltb_cases (x self - 50) (Playable.PipeData.x p))
    as [[H ->]|[H ->]]; [|now left].
  destruct (snd acc) as [m|]; [|now right].
  destruct (_ <? m); [now right|now left].
Qed.

Lemma closest_from_playable (self : t) (ps : list Playable.PipeData.t)
      (acc : option Playable.PipeData.t * option Q) :
  fst (fold_left (closest_step self) ps acc) = fst acc
  \/ exists p, fst (fold_left (closest_step self) ps acc) = Some p
               /\ In p ps /\ x self - 50 < Playable.PipeData.x p.
Proof.
  revert acc. induction ps as [|p ps IH]; intro acc; cbn; [now left|].
  destruct (IH (closest_step self acc p)) as [E|(q & E & I & L)].
  - destruct (closest_step_acc_playable self acc p) as [K|[K L]].
    + left. now rewrite E, K.
    + right. exists p. rewrite E. auto.
  - right. exists q. auto.
Qed.

Lemma choose_pipe_cons_playable (self : t) (p : Playable.PipeData.t)
      (ps : list Playable.PipeData.t) :
  exists q, choose_pipe self (p :: ps) = Ok q /\ In q (p :: ps).
Proof.
  unfold choose_pipe, closest.
  destruct (closest_from_playable self (p :: ps) (None, None))
    as [E|(q & E & I & _)].
  - rewrite E. cbn [fst]. exists p. split; [reflexivity|now left].
  - rewrite E. exists q. auto.
Qed.

Lemma choose_pipe_fallback_playable (self : t)
      (ps : list Playable.PipeData.t) :
  Forall (fun p => Playable.PipeData.x p <= x self - 50) ps ->
  choose_pipe self ps = Py.index ps 0.
Proof.
  intro H. unfold choose_pipe, closest.
  assert (K : forall acc, fold_left (closest_step self) ps acc = acc).
  { induction H as [|p ps Hp _ IH]; intro acc; cbn; [reflexivity|].
    unfold closest_step at 2. apply ltb_false in Hp. rewrite Hp. apply IH. }
  now rewrite K.
Qed.

Lemma decide_ready_playable (self : t) (p : Playable.PipeData.t)
      (br : Playable.Brain) :
  brain self = Some br -> length (Playable.weights br) = 4%nat ->
  exists output,
    decide exp self p
    = do activated <-
        Py.div 1.0 (1.0 + exp (- Py.max (-500) (Py.min 500 output)));
      Ok (0.5 <? activated).
Proof.
  intros Hb Hn. destruct br as [ws b0]. cbn in Hn.
  destruct ws as [|w0 [|w1 [|w2 [|w3 [|]]]]]; try discriminate.
  unfold decide, inputs, the_brain. rewrite Hb. cbn.
  unfold the_brain. rewrite Hb. cbn. eexists. reflexivity.
Qed.

End DecisionPlayable.

Lemma sigmoid_defined (exp : Q -> Q) (output : Q) :
  (forall q, 0 < exp q) ->
  exists d,
    (do activated <-
       Py.div 1.0 (1.0 + exp (- Py.max (-500) (Py.min 500 output)));
     Ok (0.5 <? activated)) = Ok d.
Proof.
  intro exp_pos. unfold Py.div.
  destruct (Qeq_bool _ 0) eqn:D.
  - apply Qeq_bool_iff in D.
    pose proof (exp_pos (- Py.max (-500) (Py.min 500 output))). lra.
  - cbn. eexists. reflexivity.
Qed.

Lemma exp_approx_pos (q : Q) : 0 < Samples.exp_approx q.
Proof.
  unfold Samples.exp_approx. destruct (Qle_bool 0 q) eqn:E.
  - apply Qle_bool_iff in E. lra.
  - assert (N : q < 0).
    { destruct (Qlt_le_dec q 0) as [L|L]; [exact L|].
      apply Qle_bool_iff in L. congruence. }
    assert (P : 0 < 1 - q) by lra.
    unfold Qdiv. rewrite Qmult_1_l. now apply Qinv_lt_0_compat.
Qed.

Lemma exp_approx_zero (q : Q) : q == 0 -> Samples.exp_approx q == 1.
Proof.
  intro H. unfold Samples.exp_approx. destruct (Qle_bool 0 q) eqn:E.
  - rewrite H. reflexivity.
  - assert (L : 0 <= q) by lra. apply Qle_bool_iff in L. congruence.
Qed.

(** C6: a bird whose four weights and bias are all zero never flaps: on
    every non-empty list of pipes, whatever the bird's height and velocity
    and wherever the pipes are, [think] returns [False].  The raw sum is 0,
    it passes the clamp unchanged, and the logistic value is 1/2, which is
    not above 0.5.  (On the empty list [think] raises, see C10.) *)
Theorem zero_brain_never_flaps (exp : Q -> Q) (h : Heap) (b : AI.BirdData.t)
        (p : AI.PipeData.t) (ps : list AI.PipeData.t) :
  (forall q, q == 0 -> exp q == 1) ->
  zero_brain h b ->
  AI.Bird.think exp h b (p :: ps) = Ok false.
Proof.
  intros exp_zero Hz. unfold AI.Bird.think.
  destruct (choose_pipe_cons b p ps) as (q & -> & _). cbn.
  now apply decide_zero.
Qed.

Lemma zero_brain_never_flaps_witness :
  AI.Bird.think Samples.exp_approx Samples.zero_heap
                (Samples.bird_at 300 0) [Samples.pipe_at 400 100 300]
  = Ok false.
Proof.
  apply (zero_brain_never_flaps Samples.exp_approx Samples.zero_heap
           (Samples.bird_at 300 0) (Samples.pipe_at 400 100 300) []).
  - exact exp_approx_zero.
  - exists 0%nat, 0, [0; 0; 0; 0].
    repeat split; try reflexivity. repeat constructor; reflexivity.
Defined.

(** C10: [think] needs a non-empty list of pipes.  On the empty list it
    raises [IndexError] (in the playable variant for every AI bird; a bird
    the human steers returns [False] before it looks at the pipes).  When no
    pipe is ahead of [x - 50] it works with [pipes[0]].  On a non-empty list
    a bird with a brain of four weights gets a decision, [math.exp] being
    positive. *)
Theorem think_needs_a_pipe :
  (forall exp h b, AI.Bird.think exp h b [] = Raise IndexError)
  /\ (forall exp b,
        Playable.Bird.think exp b []
        = if Playable.BirdData.is_ai b then Raise IndexError else Ok false)
  /\ (forall b ps,
        Forall (fun p => AI.PipeData.x p <= AI.BirdData.x b - 50) ps ->
        AI.Bird.choose_pipe b ps = Py.index ps 0)
  /\ (forall b ps,
        Forall (fun p => Playable.PipeData.x p
                         <= Playable.BirdData.x b - 50) ps ->
        Playable.Bird.choose_pipe b ps = Py.index ps 0)
  /\ (forall exp h b p ps,
        (forall q, 0 < exp q) -> brain_ready h b ->
        exists d, AI.Bird.think exp h b (p :: ps) = Ok d)
  /\ (forall exp b br p ps,
        (forall q, 0 < exp q) ->
        Playable.BirdData.brain b = Some br ->
        length (Playable.weights br) = 4%nat ->
        exists d, Playable.Bird.think exp b (p :: ps) = Ok d).
Proof.
  split; [|split; [|split; [|split; [|split]]]].
  - reflexivity.
  - intros exp b. unfold Playable.Bird.think.
    destruct (Playable.BirdData.is_ai b); reflexivity.
  - apply choose_pipe_fallback.
  - apply choose_pipe_fallback_playable.
  - intros exp h b p ps exp_pos Hr. unfold AI.Bird.think.
    destruct (choose_pipe_cons b p ps) as (q & -> & _). cbn.
    destruct (decide_ready exp h b q Hr) as (o & ->).
    now apply sigmoid_defined.
  - intros exp b br p ps exp_pos Hb Hn. unfold Playable.Bird.think.
    destruct (negb _); [eexists; reflexivity|].
    destruct (choose_pipe_cons_playable b p ps) as (q & -> & _). cbn.
    destruct (decide_ready_playable exp b q br Hb Hn) as (o & ->).
    now apply sigmoid_defined.
Qed.

Lemma think_needs_a_pipe_witness :
  exists d,
    AI.Bird.think Samples.exp_approx Samples.zero_heap
                  (Samples.bird_at 300 0) [Samples.pipe_at 400 100 300]
    = Ok d.
Proof.
  apply (proj1 (proj2 (proj2 (proj2 (proj2 think_needs_a_pipe))))
           Samples.exp_approx Samples.zero_heap (Samples.bird_at 300 0)
           (Samples.pipe_at 400 100 300) []).
  - exact exp_approx_pos.
  - exists 0%nat, 0, [0; 0; 0; 0]. repeat split; reflexivity.
Defined.

(** ** Scoring in the playable variant: [FlappyGame.update_birds] *)

Section Scoring.
Import Playable.BirdData Playable.FlappyGame.

(** The scoring loop has no memory: whenever some listed pipe lies more
    than 5 behind the bird, the score goes up by one. *)
Lemma score_pipes_counts (ps : list Playable.PipeData.t)
      (b : Playable.BirdData.t) :
  Exists (fun p => Playable.PipeData.x p + Playable.PipeData.width p
                   < x b - 5) ps ->
  score (score_pipes ps b) = (score b + 1)%Z.
Proof.
  induction 1 as [p ps H|p ps _ IH]; cbn.
  - unfold Playable.Pipe.passed_by.
    assert (H' : Playable.PipeData.x p + Playable.PipeData.width p < x b)
      by lra.
    apply ltb_true in H, H'. rewrite H, H'. reflexivity.
  - destruct (_ && _); [reflexivity|exact IH].
Qed.

(** C1 fails on the code: in the game [Samples.mid_game] the first pipe
    gets more than 5 behind the human's bird on the next turn (it is then at
    x = 14) and stays listed for 47 turns; no other pipe is behind the bird
    in that time.  The human's score is 0 before, 1 after one turn, 2 after
    two, 3 after three, and 47 after 48 turns, when the pipe has left the
    list: one pipe, counted on every frame. *)
Theorem passed_pipe_scores_every_frame :
  Samples.report (Samples.resume 0)
  = Some (true, 0%Z, [16; 216; 416; 616])
  /\ Samples.report (Samples.resume 1)
     = Some (true, 1%Z, [14; 214; 414; 614])
  /\ Samples.report (Samples.resume 2)
     = Some (true, 2%Z, [12; 212; 412; 612])
  /\ Samples.report (Samples.resume 3)
     = Some (true, 3%Z, [10; 210; 410; 610])
  /\ Samples.report (Samples.resume 48)
     = Some (true, 47%Z, [120; 320; 520; 720]).
Proof.
  split; [|split; [|split; [|split]]]; vm_compute; reflexivity.
Qed.

End Scoring.

(** ** Mutation: [FlappyAI.mutate_brain] *)

Section Mutation.
Import AI.FlappyAI.

Lemma random_range (g : Random.Rng) :
  0 <= fst (Random.random g) /\ fst (Random.random g) < 1.
Proof.
  unfold Random.random, Random.next. cbn [fst].
  set (w := Random.words g (Random.pos g)).
  assert (B : (0 <= w mod Random.two53 < Random.two53)%Z)
    by (apply Z.mod_pos_bound; reflexivity).
  assert (P : 0 < inject_Z Random.two53) by reflexivity.
  split.
  - apply Qle_shift_div_l; [exact P|]. rewrite Qmult_0_l.
    change 0 with (inject_Z 0). rewrite <- Zle_Qle. apply B.
  - apply Qlt_shift_div_r; [exact P|]. rewrite Qmult_1_l.
    rewrite <- Zlt_Qlt. apply B.
Qed.

Lemma uniform_range (a b : Q) (g : Random.Rng) :
  a <= b ->
  a <= fst (Random.uniform a b g) /\ fst (Random.uniform a b g) <= b.
Proof.
  intro H. unfold Random.uniform.
  pose proof (random_range g) as [L U].
  destruct (Random.random g) as [u g']. cbn [fst] in *.
  assert (0 <= (b - a) * u) by (apply Qmult_le_0_compat; lra).
  assert (0 <= (b - a) * (1 - u)) by (apply Qmult_le_0_compat; lra).
  split; lra.
Qed.

Lemma perturbed_in_range (w w' : Q) :
  perturbed w w' -> in_range w -> in_range w'.
Proof.
  intros [->|(d & _ & ->)] R; [exact R|].
  apply clamp_range. vm_compute. discriminate.
Qed.

Lemma perturbed_all_in_range (ws ws' : list Q) :
  Forall2 perturbed ws ws' -> Forall in_range ws -> Forall in_range ws'.
Proof.
  induction 1 as [|w w' ws ws' P _ IH]; intro R; [constructor|].
  inversion R; subst. constructor.
  - now apply (perturbed_in_range w).
  - now apply IH.
Qed.

Lemma index_eq {A} (l : list A) (i : nat) (a : A) :
  l !! i = Some a -> Py.index l i = Ok a.
Proof. unfold Py.index. now intros ->. Qed.

Lemma brain_weights_eq (h : Heap) (bl wl : loc) (b : Q) (ws : list Q) :
  h !! bl = Some (BrainDict wl b) -> h !! wl = Some (FloatList ws) ->
  brain_weights h bl = Ok ws.
Proof.
  intros Hd Hl. unfold brain_weights, get_dict, get_list.
  rewrite Hd. cbn. now rewrite Hl.
Qed.

Lemma brain_bias_eq (h : Heap) (bl wl : loc) (b : Q) :
  h !! bl = Some (BrainDict wl b) -> brain_bias h bl = Ok b.
Proof. intros Hd. unfold brain_bias, get_dict. now rewrite Hd. Qed.

Lemma set_weight_eq (h : Heap) (bl wl : loc) (b : Q) (ws : list Q)
      (i : nat) (v : Q) :
  h !! bl = Some (BrainDict wl b) -> h !! wl = Some (FloatList ws) ->
  (i < length ws)%nat ->
  set_weight h bl i v = Ok (<[wl := FloatList (<[i := v]> ws)]> h).
Proof.
  intros Hd Hl Hi. unfold set_weight, get_dict, get_list.
  rewrite Hd. cbn [rbind]. rewrite Hl. cbn [rbind].
  apply Nat.ltb_lt in Hi. now rewrite Hi.
Qed.

Lemma set_bias_eq (h : Heap) (bl wl : loc) (b v : Q) :
  h !! bl = Some (BrainDict wl b) ->
  set_bias h bl v = Ok (<[bl := BrainDict wl v]> h).
Proof. intros Hd. unfold set_bias, get_dict. now rewrite Hd. Qed.

Lemma mutate_weight_spec (bl wl : loc) (b : Q) (ws : list Q) (i : nat)
      (w : Q) (h : Heap) (g : Random.Rng) :
  h !! bl = Some (BrainDict wl b) ->
  h !! wl = Some (FloatList ws) ->
  ws !! i = Some w ->
  exists w' g',
    mutate_weight bl i h g
    = Ok (<[wl := FloatList (<[i := w']> ws)]> h, g')
    /\ perturbed w w'.
Proof.
  intros Hd Hl Hw. unfold mutate_weight.
  assert (Hne : wl <> bl) by (intros ->; congruence).
  assert (Hwl : (wl < length h)%nat) by (eapply lookup_lt_Some; eauto).
  assert (Hi : (i < length ws)%nat) by (eapply lookup_lt_Some; eauto).
  destruct (Random.random g) as [r g1].
  destruct (r <? mutation_rate).
  - pose proof (uniform_range (- mutation_strength) mutation_strength g1)
      as U.
    destruct (Random.uniform _ _ g1) as [d g2]. cbn [fst] in U.
    exists (Py.max (-3.0) (Py.min 3.0 (w + d))), g2.
    assert (Hd1 : forall v, <[wl := FloatList v]> h !! bl
                            = Some (BrainDict wl b))
      by (intro v; rewrite list_lookup_insert_ne by exact Hne; exact Hd).
    assert (Hl1 : forall v, <[wl := FloatList v]> h !! wl
                            = Some (FloatList v))
      by (intro v; now apply list_lookup_insert_eq).
    rewrite (brain_weights_eq _ _ _ _ _ Hd Hl). cbn [rbind].
    rewrite (index_eq _ _ _ Hw). cbn [rbind].
    rewrite (set_weight_eq _ _ _ _ _ _ _ Hd Hl Hi). cbn [rbind].
    rewrite (brain_weights_eq _ _ _ _ _ (Hd1 _) (Hl1 _)). cbn [rbind].
    rewrite (index_eq _ _ (w + d)) by now apply list_lookup_insert_eq.
    cbn [rbind].
    rewrite (set_weight_eq _ _ _ _ _ _ _ (Hd1 _) (Hl1 _))
      by now rewrite length_insert.
    cbn [rbind].
    rewrite !list_insert_insert_eq. split; [reflexivity|].
    right. exists d. split; [|reflexivity].
    apply U. vm_compute. discriminate.
  - exists w, g1. split; [|now left].
    rewrite (list_insert_id ws i w Hw).
    rewrite (list_insert_id h wl _ Hl). reflexivity.
Qed.

Lemma mutate_weights_spec (bl wl : loc) (b : Q) (n : nat) :
  forall (k : nat) (ws : list Q) (h : Heap) (g : Random.Rng),
    h !! bl = Some (BrainDict wl b) ->
    h !! wl = Some (FloatList ws) ->
    (k + n <= length ws)%nat ->
    exists ws' g',
      mutate_weights bl (seq k n) h g = Ok (<[wl := FloatList ws']> h, g')
      /\ length ws' = length ws
      /\ forall i w w',
          ws !! i = Some w -> ws' !! i = Some w' ->
          perturbed w w' /\ ((i < k)%nat -> w' = w).
Proof.
  induction n as [|n IH]; intros k ws h g Hd Hl Hk;
    cbn [seq mutate_weights].
  - exists ws, g. rewrite (list_insert_id h wl _ Hl).
    split; [reflexivity|]. split; [reflexivity|].
    intros i w w' E1 E2. rewrite E1 in E2. injection E2 as <-.
    split; [now left|reflexivity].
  - assert (Hne : wl <> bl) by (intros ->; congruence).
    assert (Hwl : (wl < length h)%nat) by (eapply lookup_lt_Some; eauto).
    destruct (lookup_lt_is_Some_2 ws k ltac:(lia)) as [w Hw].
    destruct (mutate_weight_spec bl wl b ws k w h g Hd Hl Hw)
      as (w1 & g1 & -> & P1).
    cbn [rbind].
    destruct (IH (S k) (<[k := w1]> ws)
                 (<[wl := FloatList (<[k := w1]> ws)]> h) g1)
      as (ws' & g' & -> & Hlen & Hpt).
    + rewrite list_lookup_insert_ne by exact Hne. exact Hd.
    + now apply list_lookup_insert_eq.
    + rewrite length_insert. lia.
    + exists ws', g'. rewrite list_insert_insert_eq.
      split; [reflexivity|]. rewrite Hlen, length_insert.
      split; [reflexivity|].
      intros i w0 w' E1 E2.
      destruct (decide (i = k)) as [->|Hik].
      * rewrite Hw in E1. injection E1 as <-.
        assert (E3 : <[k := w1]> ws !! k = Some w1)
          by (apply list_lookup_insert_eq; eapply lookup_lt_Some; eauto).
        destruct (Hpt k w1 w' E3 E2) as [_ Hsame].
        rewrite (Hsame ltac:(lia)). split; [exact P1|]. lia.
      * assert (E3 : <[k := w1]> ws !! i = Some w0)
          by (rewrite list_lookup_insert_ne by congruence; exact E1).
        destruct (Hpt i w0 w' E3 E2) as [P2 Hsame].
        split; [exact P2|]. intro Hlt. apply Hsame. lia.
Qed.

Lemma mutate_bias_spec (bl wl : loc) (b : Q) (h : Heap) (g : Random.Rng) :
  h !! bl = Some (BrainDict wl b) ->
  exists b' g',
    mutate_bias bl h g = Ok (<[bl := BrainDict wl b']> h, g')
    /\ perturbed b b'.
Proof.
  intros Hd. unfold mutate_bias.
  assert (Hbl : (bl < length h)%nat) by (eapply lookup_lt_Some; eauto).
  destruct (Random.random g) as [r g1].
  destruct (r <? mutation_rate).
  - pose proof (uniform_range (- mutation_strength) mutation_strength g1)
      as U.
    destruct (Random.uniform _ _ g1) as [d g2]. cbn [fst] in U.
    exists (Py.max (-3.0) (Py.min 3.0 (b + d))), g2.
    rewrite (brain_bias_eq _ _ _ _ Hd). cbn [rbind].
    rewrite (set_bias_eq _ _ _ _ _ Hd). cbn [rbind].
    assert (Hd1 : <[bl := BrainDict wl (b + d)]> h !! bl
                  = Some (BrainDict wl (b + d)))
      by now apply list_lookup_insert_eq.
    rewrite (brain_bias_eq _ _ _ _ Hd1). cbn [rbind].
    rewrite (set_bias_eq _ _ _ _ _ Hd1).
    rewrite list_insert_insert_eq. split; [reflexivity|].
    right. exists d. split; [|reflexivity].
    apply U. vm_compute. discriminate.
  - exists b, g1. split; [|now left].
    rewrite (list_insert_id h bl _ Hd). reflexivity.
Qed.

(** What [mutate_brain] does to the store: it rewrites the brain's list and
    dictionary in place and touches nothing else. *)
Lemma mutate_brain_effect (bl wl : loc) (b : Q) (ws : list Q) (h : Heap)
      (g : Random.Rng) :
  h !! bl = Some (BrainDict wl b) ->
  h !! wl = Some (FloatList ws) ->
  exists ws' b' g',
    mutate_brain bl h g
    = Ok (<[bl := BrainDict wl b']> (<[wl := FloatList ws']> h), g')
    /\ Forall2 perturbed ws ws'
    /\ perturbed b b'.
Proof.
  intros Hd Hl. unfold mutate_brain.
  assert (Hne : wl <> bl) by (intros ->; congruence).
  rewrite (brain_weights_eq _ _ _ _ _ Hd Hl). cbn [rbind].
  destruct (mutate_weights_spec bl wl b (length ws) 0 ws h g Hd Hl
              ltac:(lia)) as (ws' & g1 & -> & Hlen & Hpt).
  cbn [rbind].
  destruct (mutate_bias_spec bl wl b (<[wl := FloatList ws']> h) g1)
    as (b' & g' & -> & Pb).
  { rewrite list_lookup_insert_ne by exact Hne. exact Hd. }
  exists ws', b', g'. split; [reflexivity|]. split; [|exact Pb].
  apply Forall2_same_length_lookup_2; [now symmetry|].
  intros i w w' E1 E2. now apply (Hpt i w w').
Qed.

(** C7, as stated, fails for a brain that is out of range already: with
    every gate draw at 1/4 (not below 0.15) nothing is mutated, and a
    first weight of 5 stays 5. *)
Lemma unmutated_weight_stays_out_of_range :
  Samples.heap_of (mutate_brain 1 Samples.wide_heap Samples.rng0)
  = Some Samples.wide_heap
  /\ brain_weights Samples.wide_heap 1 = Ok [5; 0; 0; 0]
  /\ 3.0 < 5.
Proof. split; [|split]; vm_compute; reflexivity. Qed.

(** C7, amended: one mutation step rewrites the brain in place; each weight
    and the bias is either left as it was or replaced by the clamp to
    [[-3.0, 3.0]] of itself plus a number of [[-0.3, 0.3]].  So for every
    brain whose four weights and bias lie within [[-3.0, 3.0]] -- every
    brain the program creates does -- they lie within [[-3.0, 3.0]] after
    the step. *)
Theorem mutate_brain_keeps_range (bl wl : loc) (b : Q) (ws : list Q)
        (h : Heap) (g : Random.Rng) :
  h !! bl = Some (BrainDict wl b) ->
  h !! wl = Some (FloatList ws) ->
  exists ws' b' g',
    mutate_brain bl h g
    = Ok (<[bl := BrainDict wl b']> (<[wl := FloatList ws']> h), g')
    /\ Forall2 perturbed ws ws'
    /\ perturbed b b'
    /\ (Forall in_range ws -> in_range b ->
        Forall in_range ws' /\ in_range b').
Proof.
  intros Hd Hl.
  destruct (mutate_brain_effect bl wl b ws h g Hd Hl)
    as (ws' & b' & g' & E & Pw & Pb).
  exists ws', b', g'. repeat (split; [assumption|]).
  intros Rw Rb. split; [|now apply (perturbed_in_range b)].
  now apply (perturbed_all_in_range ws).
Qed.

Lemma mutate_brain_keeps_range_witness :
  exists ws' b' g',
    mutate_brain 1 Samples.zero_heap Samples.rng0
    = Ok (<[1%nat := BrainDict 0%nat b']>
            (<[0%nat := FloatList ws']> Samples.zero_heap), g')
    /\ Forall2 perturbed [0; 0; 0; 0] ws'
    /\ perturbed 0 b'
    /\ (Forall in_range [0; 0; 0; 0] -> in_range 0 ->
        Forall in_range ws' /\ in_range b').
Proof.
  apply (mutate_brain_keeps_range 1%nat 0%nat 0 [0; 0; 0; 0]
           Samples.zero_heap Samples.rng0); reflexivity.
Defined.

End Mutation.

(** ** Ranking and tournament selection *)

Section Selection.
Import AI.FlappyAI.
Context {A : Type}.

Lemma insert_desc_perm (p : A * Q) (l : list (A * Q)) :
  insert_desc p l ≡ₚ p :: l.
Proof.
  induction l as [|q l IH]; cbn; [reflexivity|].
  destruct (snd p <? snd q); [|reflexivity].
  rewrite IH. apply Permutation_swap.
Qed.

Lemma sort_desc_perm (l : list (A * Q)) : sort_desc l ≡ₚ l.
Proof.
  induction l as [|p l IH]; cbn; [reflexivity|].
  unfold sort_desc in *. cbn. now rewrite insert_desc_perm, IH.
Qed.

Lemma sort_desc_length (l : list (A * Q)) : length (sort_desc l) = length l.
Proof. apply Permutation_length, sort_desc_perm. Qed.

Lemma insert_desc_sorted (p : A * Q) (l : list (A * Q)) :
  StronglySorted (fun a b => snd b <= snd a) l ->
  StronglySorted (fun a b => snd b <= snd a) (insert_desc p l).
Proof.
  induction 1 as [|q l Hs IH Hq]; cbn.
  - repeat constructor.
  - destruct (ltb_cases (snd p) (snd q)) as [[H ->]|[H ->]].
    + constructor; [exact IH|].
      rewrite insert_desc_perm. constructor; [lra|exact Hq].
    + constructor; [now constructor|].
      constructor; [exact H|].
      eapply Forall_impl; [exact Hq|]. cbn. intros r Hr. lra.
Qed.

Lemma sort_desc_sorted (l : list (A * Q)) :
  StronglySorted (fun a b => snd b <= snd a) (sort_desc l).
Proof.
  induction l as [|p l IH]; [constructor|].
  unfold sort_desc in *. cbn. now apply insert_desc_sorted.
Qed.

Lemma randbelow_lt (n : nat) (g : Random.Rng) :
  (0 < n)%nat -> (fst (Random.randbelow n g) < n)%nat.
Proof.
  intro H. unfold Random.randbelow, Random.next. cbn [fst].
  pose proof (Z.mod_pos_bound (Random.words g (Random.pos g)) (Z.of_nat n)
                ltac:(lia)).
  lia.
Qed.

Lemma sample_pool_total (k : nat) :
  forall (pool : list A) (g : Random.Rng),
    (k <= length pool)%nat ->
    exists picked g',
      Random.sample_pool pool k g = Ok (picked, g')
      /\ length picked = k
      /\ Forall (fun a => a ∈ pool) picked.
Proof.
  induction k as [|k IH]; intros pool g Hk; cbn [Random.sample_pool].
  - exists [], g. repeat split. constructor.
  - pose proof (randbelow_lt (length pool) g ltac:(lia)) as Hj.
    destruct (Random.randbelow (length pool) g) as [j g1]. cbn [fst] in Hj.
    destruct (lookup_lt_is_Some_2 pool j Hj) as [xj Ej].
    destruct (lookup_lt_is_Some_2 pool (length pool - 1) ltac:(lia))
      as [xl El].
    rewrite (index_eq _ _ _ Ej), (index_eq _ _ _ El). cbn [rbind].
    destruct (IH (take (length pool - 1) (<[j := xl]> pool)) g1)
      as (rest & g2 & -> & Hlen & Hin).
    { rewrite length_take, length_insert. lia. }
    cbn [rbind]. exists (xj :: rest), g2.
    split; [reflexivity|]. split; [cbn; now rewrite Hlen|].
    constructor.
    + eapply list_elem_of_lookup_2. exact Ej.
    + eapply Forall_impl; [exact Hin|]. cbn. intros a Ha.
      apply list_elem_of_lookup in Ha as [i Hi].
      apply lookup_take_Some in Hi as [Hi _].
      apply list_lookup_insert_Some in Hi as [(-> & -> & _)|[_ Hi]].
      * eapply list_elem_of_lookup_2. exact El.
      * eapply list_elem_of_lookup_2. exact Hi.
Qed.

End Selection.

Lemma tournament_selection_total
      (pairs : list (AI.BirdData.t * Q)) (g : Random.Rng) :
  pairs <> [] ->
  exists parent g',
    AI.FlappyAI.tournament_selection pairs g = Ok (parent, g')
    /\ parent ∈ map fst pairs.
Proof.
  intro Hne. unfold AI.FlappyAI.tournament_selection, Random.sample.
  assert (Hlen : (0 < length pairs)%nat)
    by (destruct pairs; [congruence|cbn; lia]).
  destruct (sample_pool_total (Nat.min 3 (length pairs)) pairs g ltac:(lia))
    as (picked & g' & -> & Hk & Hin).
  cbn [rbind].
  assert (Hs : (0 < length (AI.FlappyAI.sort_desc picked))%nat)
    by (rewrite sort_desc_length; lia).
  destruct (lookup_lt_is_Some_2 _ 0 Hs) as [best Eb].
  rewrite (index_eq _ _ _ Eb). cbn [rbind].
  exists (fst best), g'. split; [reflexivity|].
  apply list_elem_of_fmap. exists best. split; [reflexivity|].
  apply list_elem_of_lookup_2 in Eb. rewrite sort_desc_perm in Eb.
  rewrite Forall_forall in Hin. now apply Hin.
Qed.

(** ** Replacement: [FlappyAI.create_next_generation] *)

Section Replacement.
Import AI.FlappyAI AI.BirdData.

Lemma init_spec (h : Heap) (g : Random.Rng) :
  exists ws bias g',
    AI.Bird.init h g
    = (mk 100.0 300.0 0.0 true 0 0.0 (S (length h)),
       h ++ [FloatList ws; BrainDict (length h) bias], g').
Proof.
  unfold AI.Bird.init, AI.Bird.create_random_brain, alloc.
  destruct (AI.Bird.random_weights 4 g) as [ws g1].
  destruct (Random.uniform (-1.0) 1.0 g1) as [bias g2].
  exists ws, bias, g2. rewrite length_app, Nat.add_1_r, <- app_assoc.
  reflexivity.
Qed.

Lemma copy_brain_spec (h : Heap) (b : t) (wl : loc) (bias : Q)
      (ws : list Q) :
  h !! brain b = Some (BrainDict wl bias) ->
  h !! wl = Some (FloatList ws) ->
  AI.Bird.copy_brain h b
  = Ok (S (length h), h ++ [FloatList ws; BrainDict (length h) bias]).
Proof.
  intros Hd Hl. unfold AI.Bird.copy_brain, get_dict, get_list, alloc.
  rewrite Hd. cbn [rbind]. rewrite Hl. cbn [rbind].
  rewrite length_app, Nat.add_1_r, <- app_assoc. reflexivity.
Qed.

Lemma brain_ok_app (h ext : Heap) (b : t) :
  brain_ok h b -> brain_ok (h ++ ext) b.
Proof.
  intros (wl & bias & ws & Hd & Hl). exists wl, bias, ws.
  split; now apply lookup_app_l_Some.
Qed.

Lemma block_ok_shift (base : nat) (ext1 ext : Heap) (k : nat) (b : t)
      (ws : list Q) (bias : Q) :
  length ext1 = 4%nat ->
  block_ok (base + 4) ext k b ws bias ->
  block_ok base (ext1 ++ ext) (S k) b ws bias.
Proof.
  intros H4 (Hb & Hd & Hl). unfold block_ok.
  replace (4 * S k + 3)%nat with (length ext1 + (4 * k + 3))%nat by lia.
  replace (4 * S k + 2)%nat with (length ext1 + (4 * k + 2))%nat by lia.
  rewrite !lookup_app_r by lia.
  replace (length ext1 + (4 * k + 3) - length ext1)%nat
    with (4 * k + 3)%nat by lia.
  replace (length ext1 + (4 * k + 2) - length ext1)%nat
    with (4 * k + 2)%nat by lia.
  rewrite H4.
  replace (base + (4 + (4 * k + 3)))%nat with (base + 4 + (4 * k + 3))%nat
    by lia.
  replace (base + (4 + (4 * k + 2)))%nat with (base + 4 + (4 * k + 2))%nat
    by lia.
  auto.
Qed.

Lemma keep_elites_spec (ranked : list (t * Q)) (idx : list nat) :
  forall (h : Heap) (g : Random.Rng),
    Forall (fun i => exists e, ranked !! i = Some e /\ brain_ok h (fst e))
           idx ->
    exists bs ext g',
      keep_elites ranked idx h g = Ok (bs, h ++ ext, g')
      /\ length bs = length idx
      /\ length ext = (4 * length idx)%nat
      /\ forall k i, idx !! k = Some i ->
           exists b e ws bias,
             bs !! k = Some b /\ ranked !! i = Some e
             /\ brain_value h (fst e) = Some (ws, bias)
             /\ block_ok (length h) ext k b ws bias.
Proof.
  induction idx as [|i idx IH]; intros h g Hok; cbn [keep_elites].
  - exists [], [], g. rewrite app_nil_r. repeat split.
    intros k j E. destruct k; discriminate.
  - inversion Hok as [|? ? (e & Ee & wl & bias & ws & Hd & Hl) Hrest];
      subst.
    rewrite (index_eq _ _ _ Ee). cbn [rbind].
    destruct (init_spec h g) as (gws & gbias & g1 & ->).
    set (h1 := h ++ [FloatList gws; BrainDict (length h) gbias]).
    rewrite (copy_brain_spec h1 (fst e) wl bias ws)
      by (now apply lookup_app_l_Some).
    cbn [rbind].
    set (ext1 := [FloatList gws; BrainDict (length h) gbias;
                  FloatList ws; BrainDict (length h1) bias]).
    assert (E1 : h1 ++ [FloatList ws; BrainDict (length h1) bias]
                 = h ++ ext1)
      by (subst h1 ext1; rewrite <- app_assoc; reflexivity).
    rewrite E1.
    destruct (IH (h ++ ext1) g1) as (bs & ext & g' & -> & Hlen & Hext & Hk).
    { eapply Forall_impl; [exact Hrest|]. cbn.
      intros j (e' & Ej & Hb). exists e'. split; [exact Ej|].
      now apply brain_ok_app. }
    cbn [rbind]. eexists (_ :: bs), (ext1 ++ ext), g'.
    rewrite app_assoc. split; [reflexivity|].
    split; [cbn; now rewrite Hlen|].
    split; [rewrite length_app, Hext; cbn; lia|].
    intros k j Ek. destruct k as [|k].
    + injection Ek as <-. eexists _, e, ws, bias.
      split; [reflexivity|]. split; [exact Ee|].
      split; [unfold brain_value; now rewrite Hd, Hl|].
      unfold block_ok. cbn. subst h1. rewrite length_app. cbn.
      rewrite !Nat.add_succ_r, Nat.add_0_r. auto.
    + destruct (Hk k j Ek) as (b & e' & ws' & bias' & Eb & Ej & Hv & Hblk).
      exists b, e', ws', bias'. split; [exact Eb|]. split; [exact Ej|].
      split.
      * unfold brain_value in *.
        destruct (Forall_lookup_1 _ _ _ _ Hrest Ek)
          as (e'' & Ej' & wl' & b'' & ws'' & Hd' & Hl').
        rewrite Ej in Ej'. injection Ej' as <-.
        rewrite (lookup_app_l_Some _ _ _ _ Hd') in Hv.
        rewrite (lookup_app_l_Some _ _ _ _ Hl') in Hv.
        now rewrite Hd', Hl'.
      * apply block_ok_shift; [reflexivity|].
        rewrite length_app in Hblk. exact Hblk.
Qed.

Lemma insert_last_two (l : Heap) (x y x' y' : Obj) :
  <[S (length l) := y']> (<[length l := x']> (l ++ [x; y])) = l ++ [x'; y'].
Proof.
  induction l as [|o l IH]; [reflexivity|].
  cbn [length app]. change (o :: l ++ [x'; y']) with (o :: (l ++ [x'; y'])).
  rewrite <- IH. reflexivity.
Qed.

Lemma lookup_last_two (l : Heap) (x y : Obj) :
  (l ++ [x; y]) !! length l = Some x
  /\ (l ++ [x; y]) !! S (length l) = Some y.
Proof. induction l as [|o l IH]; cbn; [auto|exact IH]. Qed.

Lemma fill_offspring_spec (ranked : list (t * Q)) (missing : nat) :
  forall (h : Heap) (g : Random.Rng),
    ((0 < missing)%nat -> ranked <> []) ->
    Forall (fun e => brain_ok h (fst e)) ranked ->
    exists bs ext g',
      fill_offspring missing ranked h g = Ok (bs, h ++ ext, g')
      /\ length bs = missing
      /\ length ext = (4 * missing)%nat
      /\ forall k b, bs !! k = Some b ->
           exists ws bias,
             block_ok (length h) ext k b ws bias
             /\ exists parent pws pbias,
                 parent ∈ map fst ranked
                 /\ brain_value h parent = Some (pws, pbias)
                 /\ Forall2 perturbed pws ws
                 /\ perturbed pbias bias.
Proof.
  induction missing as [|missing IH]; intros h g Hne Hok;
    cbn [fill_offspring].
  - exists [], [], g. rewrite app_nil_r. repeat split.
    intros k b E. destruct k; discriminate.
  - destruct (tournament_selection_total ranked g (Hne ltac:(lia)))
      as (parent & g1 & -> & Hin).
    cbn [rbind].
    assert (Hp : brain_ok h parent).
    { apply list_elem_of_fmap in Hin as (e & -> & He).
      rewrite Forall_forall in Hok. now apply Hok. }
    destruct Hp as (wl & pbias & pws & Hd & Hl).
    destruct (init_spec h g1) as (gws & gbias & g2 & ->).
    set (h1 := h ++ [FloatList gws; BrainDict (length h) gbias]).
    rewrite (copy_brain_spec h1 parent wl pbias pws)
      by (now apply lookup_app_l_Some).
    cbn [rbind]. cbn [brain set_brain].
    destruct (lookup_last_two h1 (FloatList pws)
                              (BrainDict (length h1) pbias)) as [L1 L2].
    destruct (mutate_brain_effect (S (length h1)) (length h1) pbias pws
                _ g2 L2 L1) as (ws & bias & g3 & -> & Pw & Pb).
    cbn [rbind]. rewrite insert_last_two.
    set (ext1 := [FloatList gws; BrainDict (length h) gbias;
                  FloatList ws; BrainDict (length h1) bias]).
    assert (E1 : h1 ++ [FloatList ws; BrainDict (length h1) bias]
                 = h ++ ext1)
      by (subst h1 ext1; rewrite <- app_assoc; reflexivity).
    rewrite E1.
    destruct (IH (h ++ ext1) g3) as (bs & ext & g' & -> & Hlen & Hext & Hk).
    { intros _. apply Hne. lia. }
    { eapply Forall_impl; [exact Hok|]. cbn. intros e He.
      now apply brain_ok_app. }
    cbn [rbind]. eexists (_ :: bs), (ext1 ++ ext), g'.
    rewrite app_assoc. split; [reflexivity|].
    split; [cbn; now rewrite Hlen|].
    split; [rewrite length_app, Hext; cbn; lia|].
    intros k b Ek. destruct k as [|k].
    + injection Ek as <-. exists ws, bias. split.
      * unfold block_ok. cbn. subst h1. rewrite length_app. cbn.
        rewrite !Nat.add_succ_r, Nat.add_0_r. auto.
      * exists parent, pws, pbias. split; [exact Hin|].
        split; [unfold brain_value; now rewrite Hd, Hl|]. auto.
    + destruct (Hk k b Ek)
        as (ws' & bias' & Hblk & p' & pws' & pbias' & Hin' & Hv & Pw' & Pb').
      exists ws', bias'. split.
      * apply block_ok_shift; [reflexivity|].
        rewrite length_app in Hblk. exact Hblk.
      * exists p', pws', pbias'. split; [exact Hin'|].
        split; [|auto].
        apply list_elem_of_fmap in Hin' as (e & -> & He).
        rewrite Forall_forall in Hok.
        destruct (Hok e He) as (wl' & b'' & ws'' & Hd' & Hl').
        unfold brain_value in *.
        rewrite (lookup_app_l_Some _ _ _ _ Hd') in Hv.
        rewrite (lookup_app_l_Some _ _ _ _ Hl') in Hv.
        now rewrite Hd', Hl'.
Qed.

Lemma block_ok_shift_many (base m : nat) (ext1 ext : Heap) (k : nat) (b : t)
      (ws : list Q) (bias : Q) :
  length ext1 = (4 * m)%nat ->
  block_ok (base + 4 * m) ext k b ws bias ->
  block_ok base (ext1 ++ ext) (m + k) b ws bias.
Proof.
  intros H4 (Hb & Hd & Hl). unfold block_ok.
  replace (4 * (m + k) + 3)%nat with (length ext1 + (4 * k + 3))%nat by lia.
  replace (4 * (m + k) + 2)%nat with (length ext1 + (4 * k + 2))%nat by lia.
  rewrite !lookup_app_r by lia.
  replace (length ext1 + (4 * k + 3) - length ext1)%nat
    with (4 * k + 3)%nat by lia.
  replace (length ext1 + (4 * k + 2) - length ext1)%nat
    with (4 * k + 2)%nat by lia.
  rewrite H4.
  replace (base + (4 * m + (4 * k + 3)))%nat
    with (base + 4 * m + (4 * k + 3))%nat by lia.
  replace (base + (4 * m + (4 * k + 2)))%nat
    with (base + 4 * m + (4 * k + 2))%nat by lia.
  auto.
Qed.

Lemma block_ok_app (base : nat) (ext1 ext : Heap) (k : nat) (b : t)
      (ws : list Q) (bias : Q) :
  block_ok base ext1 k b ws bias -> block_ok base (ext1 ++ ext) k b ws bias.
Proof.
  intros (Hb & Hd & Hl). unfold block_ok.
  rewrite (lookup_app_l_Some _ _ _ _ Hd), (lookup_app_l_Some _ _ _ _ Hl).
  auto.
Qed.

Lemma block_ok_read (h ext : Heap) (k : nat) (b : t) (ws : list Q)
      (bias : Q) :
  block_ok (length h) ext k b ws bias ->
  brain_value (h ++ ext) b = Some (ws, bias)
  /\ brain_cells (h ++ ext) b
     = [(length h + (4 * k + 3))%nat; (length h + (4 * k + 2))%nat].
Proof.
  intros (Hb & Hd & Hl). unfold brain_value, brain_cells. rewrite Hb.
  rewrite !lookup_app_r by lia.
  replace (length h + (4 * k + 3) - length h)%nat with (4 * k + 3)%nat
    by lia.
  rewrite Hd. rewrite !lookup_app_r by lia.
  replace (length h + (4 * k + 2) - length h)%nat with (4 * k + 2)%nat
    by lia.
  rewrite Hl. auto.
Qed.

Lemma brain_ok_value (h : Heap) (b : t) :
  brain_ok h b <-> is_Some (brain_value h b).
Proof.
  unfold brain_ok, brain_value. split.
  - intros (wl & bias & ws & -> & ->). eauto.
  - intros [v Hv].
    destruct (h !! brain b) as [[wl bias|]|]; try discriminate.
    destruct (h !! wl) as [[|ws]|] eqn:E; try discriminate.
    exists wl, bias, ws. auto.
Qed.

(** The whole replacement: the new population is the elites followed by the
    children; the store grows by one block per new bird and keeps what it
    held. *)
Lemma create_next_generation_spec (self : AI.FlappyAI.t)
      (fitness_scores : list Q) (h : Heap) (g : Random.Rng) :
  Forall (brain_ok h) (birds self) ->
  ((0 < population_size self)%nat -> birds self <> []) ->
  length fitness_scores = length (birds self) ->
  let ranked := sort_desc (zip (birds self) fitness_scores) in
  let elites := Nat.min 3 (length ranked) in
  exists bs ext g',
    create_next_generation self fitness_scores h g
    = Ok (set_birds bs self, h ++ ext, g')
    /\ length bs = (elites + (population_size self - elites))%nat
    /\ forall k b, bs !! k = Some b ->
         exists ws bias,
           block_ok (length h) ext k b ws bias
           /\ ((k < elites)%nat ->
               exists e, ranked !! k = Some e
                         /\ brain_value h (fst e) = Some (ws, bias)).
Proof.
  intros Hok Hne Hfs ranked elites. unfold create_next_generation.
  fold ranked. fold elites.
  assert (Hperm : ranked ≡ₚ zip (birds self) fitness_scores)
    by apply sort_desc_perm.
  assert (Hlen : length ranked = length (birds self)).
  { rewrite (Permutation_length Hperm), length_zip_with. lia. }
  assert (Hrok : Forall (fun e => brain_ok h (fst e)) ranked).
  { rewrite Hperm. apply Forall_forall. intros [b f] Hin.
    apply list_elem_of_lookup in Hin as [i Hi].
    apply lookup_zip_with_Some in Hi as (b' & f' & [= <- <-] & Hb & _).
    rewrite Forall_forall in Hok. apply Hok.
    eapply list_elem_of_lookup_2. exact Hb. }
  destruct (keep_elites_spec ranked (seq 0 elites) h g)
    as (es & ext1 & g1 & -> & Hes & Hext1 & Hk1).
  { apply Forall_forall. intros i Hi. apply elem_of_seq in Hi.
    destruct (lookup_lt_is_Some_2 ranked i ltac:(lia)) as [e Ee].
    exists e. split; [exact Ee|].
    rewrite Forall_forall in Hrok. apply Hrok.
    eapply list_elem_of_lookup_2. exact Ee. }
  cbn [rbind]. rewrite length_seq in Hes, Hext1.
  destruct (fill_offspring_spec ranked (population_size self - length es)
              (h ++ ext1) g1) as (cs & ext2 & g2 & -> & Hcs & Hext2 & Hk2).
  { intros Hpos Hnil. apply Hne; [lia|].
    apply length_zero_iff_nil. rewrite <- Hlen, Hnil. reflexivity. }
  { eapply Forall_impl; [exact Hrok|]. cbn. intros e He.
    now apply brain_ok_app. }
  cbn [rbind]. exists (es ++ cs), (ext1 ++ ext2), g2.
  rewrite app_assoc. split; [reflexivity|].
  split; [rewrite length_app, Hcs, Hes; reflexivity|].
  intros k b Ek.
  destruct (decide (k < elites)%nat) as [Hlt|Hge].
  - rewrite lookup_app_l in Ek by lia.
    destruct (Hk1 k k) as (b' & e & ws & bias & Eb & Ee & Hv & Hblk).
    { apply lookup_seq. lia. }
    rewrite Eb in Ek. injection Ek as <-.
    exists ws, bias. split; [now apply block_ok_app|].
    intros _. exists e. auto.
  - rewrite lookup_app_r in Ek by lia. rewrite Hes in Ek.
    destruct (Hk2 _ b Ek) as (ws & bias & Hblk & _).
    exists ws, bias. split; [|lia].
    rewrite length_app, Hext1 in Hblk.
    replace k with (elites + (k - elites))%nat at 1 by lia.
    now apply block_ok_shift_many.
Qed.

End Replacement.

Section Generations.
Import AI.FlappyAI AI.BirdData.

Lemma random_weights_spec (n : nat) (g : Random.Rng) :
  length (fst (AI.Bird.random_weights n g)) = n
  /\ Forall in_range (fst (AI.Bird.random_weights n g)).
Proof.
  revert g. induction n as [|n IH]; intro g; cbn [AI.Bird.random_weights].
  - split; [reflexivity|constructor].
  - pose proof (uniform_range (-2.0) 2.0 g ltac:(vm_compute; discriminate))
      as [L U].
    destruct (Random.uniform (-2.0) 2.0 g) as [w g1]. cbn [fst] in L, U.
    destruct (IH g1) as [Hl Hr].
    destruct (AI.Bird.random_weights n g1) as [ws g2].
    cbn [fst length] in *.
    split; [now rewrite Hl|]. constructor; [|exact Hr].
    unfold in_range. split; lra.
Qed.

(** Every brain the program creates has four weights, and they and the
    bias are within the clamp range. *)
Lemma new_birds_spec (n : nat) :
  forall (h : Heap) (g : Random.Rng),
    exists bs ext g',
      new_birds n h g = (bs, h ++ ext, g')
      /\ length bs = n
      /\ Forall (fun b =>
                   exists ws bias,
                     brain_value (h ++ ext) b = Some (ws, bias)
                     /\ length ws = 4%nat
                     /\ Forall in_range ws /\ in_range bias) bs.
Proof.
  induction n as [|n IH]; intros h g; cbn [new_birds].
  - exists [], [], g. rewrite app_nil_r. repeat split. constructor.
  - unfold AI.Bird.init, AI.Bird.create_random_brain, alloc.
    pose proof (random_weights_spec 4 g) as [Hl Hr].
    destruct (AI.Bird.random_weights 4 g) as [ws g1]. cbn [fst] in Hl, Hr.
    pose proof (uniform_range (-1.0) 1.0 g1 ltac:(vm_compute; discriminate))
      as [L U].
    destruct (Random.uniform (-1.0) 1.0 g1) as [bias g2]. cbn [fst] in L, U.
    rewrite length_app, Nat.add_1_r, <- app_assoc. cbn [app].
    destruct (IH (h ++ [FloatList ws; BrainDict (length h) bias]) g2)
      as (bs & ext & g' & -> & Hlen & Hall).
    eexists (_ :: bs), ([FloatList ws; BrainDict (length h) bias] ++ ext), g'.
    rewrite app_assoc. split; [reflexivity|].
    split; [cbn; now rewrite Hlen|].
    constructor; [|exact Hall].
    exists ws, bias. split; [|split; [exact Hl|split; [exact Hr|]]].
    + destruct (lookup_last_two h (FloatList ws) (BrainDict (length h) bias))
        as [L1 L2].
      unfold brain_value. cbn [brain].
      rewrite (lookup_app_l_Some _ _ _ _ L2).
      now rewrite (lookup_app_l_Some _ _ _ _ L1).
    + unfold in_range. split; lra.
Qed.

Lemma create_population_spec (self : AI.FlappyAI.t) (h : Heap)
      (g : Random.Rng) :
  exists bs ext g',
    create_population self h g = (set_birds bs self, h ++ ext, g')
    /\ length bs = population_size self
    /\ Forall (brain_ok (h ++ ext)) bs.
Proof.
  unfold create_population.
  destruct (new_birds_spec (population_size self) h g)
    as (bs & ext & g' & -> & Hlen & Hall).
  exists bs, ext, g'. split; [reflexivity|]. split; [exact Hlen|].
  eapply Forall_impl; [exact Hall|]. cbn.
  intros b (ws & bias & Hv & _). apply brain_ok_value. now rewrite Hv.
Qed.

(** C9 / X1: a generation transition keeps the size of the population: from a
    population of [population_size] birds (20 in the program) with one
    fitness value each, [create_next_generation] returns, and the new
    population has as many birds as the old one -- the elites (3, or all
    birds of a smaller population) and the children that fill it up to
    [population_size], which itself is unchanged.  The new birds again have
    their brains in the store. *)
Theorem population_size_is_kept (self : AI.FlappyAI.t)
        (fitness_scores : list Q) (h : Heap) (g : Random.Rng) :
  length (birds self) = population_size self ->
  length fitness_scores = length (birds self) ->
  Forall (brain_ok h) (birds self) ->
  exists self' h' g',
    create_next_generation self fitness_scores h g = Ok (self', h', g')
    /\ length (birds self') = length (birds self)
    /\ length (birds self')
       = (Nat.min 3 (length (birds self))
          + (population_size self - Nat.min 3 (length (birds self))))%nat
    /\ population_size self' = population_size self
    /\ Forall (brain_ok h') (birds self').
Proof.
  intros Hpop Hfs Hok.
  destruct (create_next_generation_spec self fitness_scores h g Hok)
    as (bs & ext & g' & E & Hlen & Hblk); [|exact Hfs|].
  { intros Hpos Hnil. rewrite Hnil in Hpop. cbn in Hpop. lia. }
  rewrite sort_desc_length, length_zip_with in Hlen.
  replace (Nat.min (length (birds self)) (length fitness_scores))
    with (length (birds self)) in Hlen by lia.
  exists (set_birds bs self), (h ++ ext), g'.
  cbn [birds population_size set_birds].
  split; [exact E|]. split; [lia|]. split; [exact Hlen|].
  split; [reflexivity|].
  apply Forall_lookup_2. intros k b Ek.
  destruct (Hblk k b Ek) as (ws & bias & Hb & _).
  apply brain_ok_value. apply block_ok_read in Hb as [-> _]. eauto.
Qed.

Lemma population_size_is_kept_witness :
  exists self' h' g',
    create_next_generation (Samples.population0.1.1) Samples.fitness0
                           (Samples.population0.1.2) (Samples.population0.2)
    = Ok (self', h', g')
    /\ length (birds self') = length (birds (Samples.population0.1.1))
    /\ length (birds self')
       = (Nat.min 3 (length (birds (Samples.population0.1.1)))
          + (population_size (Samples.population0.1.1)
             - Nat.min 3 (length (birds (Samples.population0.1.1)))))%nat
    /\ population_size self' = population_size (Samples.population0.1.1)
    /\ Forall (brain_ok h') (birds self').
Proof.
  apply (population_size_is_kept (Samples.population0.1.1) Samples.fitness0
           (Samples.population0.1.2) (Samples.population0.2)).
  - reflexivity.
  - reflexivity.
  - unfold Samples.population0.
    destruct (create_population_spec init [] Samples.rng0)
      as (bs & ext & g' & E & _ & Hok).
    rewrite E. exact Hok.
Defined.

End Generations.

Section Elitism.
Import AI.FlappyAI AI.BirdData.

(** C8 / X2: after a generation transition the first birds of the new
    population carry the brains of the top-ranked birds of the old one.
    The ranking is the old population with its fitness values in
    descending order; for each of its first 3 places (all places of a
    smaller population) the new bird at that place holds, in the final
    store, exactly the weights and the bias the ranked bird held before:
    no mutation has touched them.  The copy is independent: its dictionary
    and its list are new objects of the store, no other new bird shares
    them, and the old store is unchanged. *)
Theorem elites_are_copied (self : AI.FlappyAI.t) (fitness_scores : list Q)
        (h : Heap) (g : Random.Rng) (self' : AI.FlappyAI.t) (h' : Heap)
        (g' : Random.Rng) :
  length (birds self) = population_size self ->
  length fitness_scores = length (birds self) ->
  Forall (brain_ok h) (birds self) ->
  create_next_generation self fitness_scores h g = Ok (self', h', g') ->
  let ranked := sort_desc (zip (birds self) fitness_scores) in
  ranked ≡ₚ zip (birds self) fitness_scores
  /\ StronglySorted (fun p q => snd q <= snd p) ranked
  /\ h `prefix_of` h'
  /\ forall i, (i < Nat.min 3 (length (birds self)))%nat ->
       exists old f new,
         ranked !! i = Some (old, f)
         /\ birds self' !! i = Some new
         /\ is_Some (brain_value h old)
         /\ brain_value h' new = brain_value h old
         /\ Forall (fun l => (length h <= l)%nat) (brain_cells h' new)
         /\ forall j other,
             j <> i -> birds self' !! j = Some other ->
             brain_cells h' new ## brain_cells h' other.
Proof.
  intros Hpop Hfs Hok E ranked.
  destruct (create_next_generation_spec self fitness_scores h g Hok)
    as (bs & ext & g1 & E1 & Hlen & Hblk); [|exact Hfs|].
  { intros Hpos Hnil. rewrite Hnil in Hpop. cbn in Hpop. lia. }
  rewrite E1 in E. injection E as <- <- <-. fold ranked in Hlen, Hblk.
  assert (Hr : length ranked = length (birds self)).
  { unfold ranked. rewrite sort_desc_length, length_zip_with. lia. }
  rewrite Hr in Hlen, Hblk.
  split; [apply sort_desc_perm|]. split; [apply sort_desc_sorted|].
  split; [now exists ext|].
  intros i Hi. cbn [birds set_birds].
  destruct (lookup_lt_is_Some_2 bs i ltac:(lia)) as [new Enew].
  destruct (Hblk i new Enew) as (ws & bias & Hb & Hel).
  destruct (Hel Hi) as ([old f] & Eold & Hv). cbn [fst] in Hv.
  destruct (block_ok_read h ext i new ws bias Hb) as [Hv' Hc'].
  exists old, f, new. split; [exact Eold|]. split; [exact Enew|].
  split; [rewrite Hv; eauto|]. split; [now rewrite Hv, Hv'|].
  split.
  - rewrite Hc'. repeat constructor; lia.
  - intros j other Hji Ej.
    destruct (Hblk j other Ej) as (ws2 & bias2 & Hb2 & _).
    destruct (block_ok_read h ext j other ws2 bias2 Hb2) as [_ Hc2].
    rewrite Hc', Hc2. intros l Hl1 Hl2.
    rewrite !elem_of_cons, elem_of_nil in Hl1, Hl2. lia.
Qed.

Lemma elites_are_copied_witness :
  exists self' h' g',
    create_next_generation (Samples.population0.1.1) Samples.fitness0
                           (Samples.population0.1.2) (Samples.population0.2)
    = Ok (self', h', g')
    /\ forall i, (i < 3)%nat ->
         exists old f new,
           sort_desc (zip (birds (Samples.population0.1.1)) Samples.fitness0)
             !! i = Some (old, f)
           /\ birds self' !! i = Some new
           /\ brain_value h' new
              = brain_value (Samples.population0.1.2) old.
Proof.
  assert (Hok : Forall (brain_ok (Samples.population0.1.2))
                       (birds (Samples.population0.1.1))).
  { unfold Samples.population0.
    destruct (create_population_spec init [] Samples.rng0)
      as (bs & ext & g' & E & _ & Hok).
    rewrite E. exact Hok. }
  assert (Hne : (0 < population_size (Samples.population0.1.1))%nat ->
                birds (Samples.population0.1.1) <> []).
  { intros _ H. apply (f_equal length) in H.
    exact (Nat.neq_succ_0 19 H). }
  destruct (create_next_generation_spec (Samples.population0.1.1)
              Samples.fitness0 (Samples.population0.1.2)
              (Samples.population0.2) Hok Hne eq_refl)
    as (bs & ext & g' & E & _).
  eexists _, _, g'. split; [exact E|].
  intros i Hi.
  destruct (elites_are_copied (Samples.population0.1.1) Samples.fitness0
              (Samples.population0.1.2) (Samples.population0.2)
              _ _ g' eq_refl eq_refl Hok E)
    as (_ & _ & _ & Hel).
  destruct (Hel i Hi) as (old & f & new & E1 & E2 & _ & E3 & _).
  exists old, f, new. auto.
Defined.

End Elitism.

(** ** One generation: [FlappyAI.run_generation] *)

Section Generation.
Import AI.FlappyAI AI.BirdData.

Variable exp : Q -> Q.

Lemma check_pipes_cases (f : Z) (ps : list AI.PipeData.t) (b : t) :
  check_pipes f ps b = b
  \/ check_pipes f ps b
     = set_fitness (fitness_of (score b) f) (set_alive false b).
Proof.
  induction ps as [|p ps IH]; cbn; [now left|].
  destruct (AI.Pipe.collides_with p b); [now right|exact IH].
Qed.

Lemma update_keeps (b : t) :
  x (AI.Bird.update b) = x b
  /\ score (AI.Bird.update b) = score b
  /\ fitness (AI.Bird.update b) = fitness b
  /\ brain (AI.Bird.update b) = brain b.
Proof.
  unfold AI.Bird.update. cbn.
  destruct (Qle_bool _ _ || Qle_bool _ _); cbn; auto.
Qed.

(** One bird in one frame: it stays alive and scores, or it dies with
    the fitness of this frame; its place and its brain are untouched. *)
Lemma bird_frame_cases (h : Heap) (f : Z) (ps : list AI.PipeData.t)
      (b b' : t) :
  bird_frame exp h f ps b = Ok b' ->
  x b' = x b /\ brain b' = brain b
  /\ ((alive b' = true /\ score b' = (score b + 1)%Z
       /\ fitness b' = fitness b)
      \/ (alive b' = false /\ score b' = score b
          /\ fitness b' = fitness_of (score b) f)).
Proof.
  unfold bird_frame.
  destruct (AI.Bird.think exp h b ps) as [decision|e]; [|discriminate].
  cbn [rbind].
  set (b1 := if decision then AI.Bird.flap b else b).
  assert (H1 : x b1 = x b /\ score b1 = score b /\ fitness b1 = fitness b
               /\ brain b1 = brain b)
    by (subst b1; destruct decision; cbn; auto).
  destruct H1 as (Hx1 & Hs1 & Hf1 & Hb1).
  destruct (update_keeps b1) as (Hx2 & Hs2 & Hf2 & Hb2).
  set (b2 := AI.Bird.update b1) in *.
  destruct (alive b2) eqn:A2; cbn [negb].
  - destruct (check_pipes_cases f ps b2) as [-> | ->].
    + rewrite A2. intros [= <-]. cbn.
      split; [congruence|]. split; [congruence|]. left.
      repeat split; congruence.
    + cbn. intros [= <-]. cbn.
      split; [congruence|]. split; [congruence|]. right.
      repeat split; congruence.
  - intros [= <-]. cbn. split; [congruence|]. split; [congruence|]. right.
    repeat split; congruence.
Qed.

Lemma bird_frame_inv (h : Heap) (f : Z) (ps : list AI.PipeData.t)
      (b b' : t) :
  alive b = true -> frame_inv f b ->
  bird_frame exp h f ps b = Ok b' -> frame_inv (f + 1) b'.
Proof.
  intros A (Hr & Ha & _) E. specialize (Ha A).
  destruct (bird_frame_cases h f ps b b' E)
    as (_ & _ & [(A' & S' & _)|(A' & S' & F')]); unfold frame_inv.
  - rewrite A', S'. split; [lia|]. split; [intros _; lia|discriminate].
  - rewrite A', S', F'. split; [lia|]. split; [discriminate|].
    intros _. now rewrite Ha.
Qed.

Lemma frame_inv_dead (f : Z) (b : t) :
  alive b = false -> frame_inv f b -> frame_inv (f + 1) b.
Proof.
  intros A (Hr & _ & Hd). unfold frame_inv.
  split; [lia|]. split; [congruence|exact Hd].
Qed.

Lemma update_birds_inv (h : Heap) (f : Z) (ps : list AI.PipeData.t)
      (bs : list t) :
  forall bs',
    Forall (frame_inv f) bs ->
    update_birds exp h f ps bs = Ok bs' ->
    Forall (frame_inv (f + 1)) bs'
    /\ Forall2 (fun b b' => x b' = x b /\ brain b' = brain b) bs bs'.
Proof.
  induction bs as [|b bs IH]; intros bs' Hall; cbn [update_birds].
  - intros [= <-]. split; constructor.
  - inversion Hall as [|? ? Hb Hrest]; subst.
    destruct (alive b) eqn:A.
    + destruct (bird_frame exp h f ps b) as [b1|e] eqn:E1; [|discriminate].
      cbn [rbind].
      destruct (update_birds exp h f ps bs) as [bs1|e] eqn:E2;
        [|discriminate].
      cbn [rbind]. intros [= <-].
      destruct (IH bs1 Hrest eq_refl) as [I1 I2].
      destruct (bird_frame_cases h f ps b b1 E1) as (Hx & Hbr & _).
      split; constructor; auto.
      now apply (bird_frame_inv h f ps b).
    + cbn [rbind].
      destruct (update_birds exp h f ps bs) as [bs1|e] eqn:E2;
        [|discriminate].
      cbn [rbind]. intros [= <-].
      destruct (IH bs1 Hrest eq_refl) as [I1 I2].
      split; constructor; auto.
      now apply frame_inv_dead.
Qed.

Lemma frame_loop_inv (events : Z -> list AI.Event) (h : Heap)
      (remaining : nat) :
  forall (f : Z) (self : AI.FlappyAI.t) (g : Random.Rng) (f' : Z)
         (self' : AI.FlappyAI.t) (g' : Random.Rng),
    Forall (frame_inv f) (birds self) ->
    frame_loop exp remaining f events h self g = Ok (Finished f' self' g') ->
    Forall (frame_inv f') (birds self')
    /\ (f <= f' <= f + Z.of_nat remaining)%Z
    /\ (f' = (f + Z.of_nat remaining)%Z
        \/ Forall (fun b => alive b = false) (birds self'))
    /\ Forall2 (fun b b' => x b' = x b /\ brain b' = brain b)
               (birds self) (birds self')
    /\ population_size self' = population_size self
    /\ best_score self' = best_score self
    /\ generation self' = generation self.
Proof.
  induction remaining as [|remaining IH];
    intros f self g f' self' g' Hall; cbn [frame_loop].
  - intros [= <- <- <-]. split; [exact Hall|]. split; [lia|].
    split; [left; lia|]. split; [|auto].
    apply Forall2_same_length_lookup_2; [reflexivity|].
    intros i b b' E1 E2. rewrite E1 in E2. injection E2 as <-. auto.
  - destruct (quit_requested (events f)); [discriminate|].
    destruct (forallb (fun bird => negb (alive bird)) (birds self)) eqn:D.
    + intros [= <- <- <-]. split; [exact Hall|]. split; [lia|].
      split; [right|split; [|auto]].
      * apply Forall_forall. intros b Hb.
        rewrite forallb_forall in D.
        apply list_elem_of_In in Hb. apply D in Hb.
        now destruct (alive b).
      * apply Forall2_same_length_lookup_2; [reflexivity|].
        intros i b b' E1 E2. rewrite E1 in E2. injection E2 as <-. auto.
    + destruct (update_pipes (pipes self) g) as [ps g1].
      cbn [birds set_pipes].
      destruct (update_birds exp h f ps (birds self)) as [bs|e] eqn:E;
        [|discriminate].
      cbn [rbind]. intro L.
      destruct (update_birds_inv h f ps (birds self) bs Hall E) as [I1 I2].
      destruct (IH (f + 1)%Z (set_birds bs (set_pipes ps self)) g1 f' self'
                   g' I1 L) as (J1 & J2 & J3 & J4 & J5 & J6 & J7).
      split; [exact J1|]. split; [lia|].
      split; [destruct J3; [left; lia|now right]|].
      split; [|auto].
      cbn [birds set_birds] in J4.
      apply Forall2_same_length_lookup_2.
      { rewrite (Forall2_length _ _ _ I2). apply (Forall2_length _ _ _ J4). }
      intros i b b' E1 E2.
      destruct (Forall2_lookup_l _ _ _ _ _ I2 E1) as (b1 & E3 & Hx1 & Hb1).
      destruct (Forall2_lookup_l _ _ _ _ _ J4 E3) as (b2 & E4 & Hx2 & Hb2).
      rewrite E2 in E4. injection E4 as <-. split; congruence.
Qed.

Lemma finalize_inv (f : Z) (b : t) :
  frame_inv f b ->
  fitness (finalize f b) = fitness_of (score (finalize f b))
                                      (score (finalize f b))
  /\ score (finalize f b) = score b
  /\ alive (finalize f b) = alive b
  /\ x (finalize f b) = x b
  /\ brain (finalize f b) = brain b.
Proof.
  intros (_ & Ha & Hd). unfold finalize.
  destruct (alive b) eqn:A; cbn.
  - rewrite (Ha eq_refl). auto.
  - rewrite A. auto.
Qed.

Lemma run_generation_spec (self : AI.FlappyAI.t)
      (events : Z -> list AI.Event) (h : Heap) (g : Random.Rng)
      (fs : list Q) (self' : AI.FlappyAI.t) (g' : Random.Rng) :
  run_generation exp self events h g = Ok (Some (fs, self', g')) ->
  fs = map fitness (birds self')
  /\ Forall (fun b =>
               fitness b = fitness_of (score b) (score b)
               /\ (0 <= score b <= 1000)%Z
               /\ (alive b = true -> score b = 1000%Z)) (birds self')
  /\ Forall2 (fun b b' => x b' = 100.0 /\ brain b' = brain b)
             (birds self) (birds self')
  /\ population_size self' = population_size self
  /\ best_score self' = best_score self
  /\ generation self' = generation self.
Proof.
  unfold run_generation.
  destruct (create_pipes (set_birds (map reset_bird (birds self)) self) g)
    as [self0 g0] eqn:C.
  assert (C0 : birds self0 = map reset_bird (birds self)
               /\ population_size self0 = population_size self
               /\ best_score self0 = best_score self
               /\ generation self0 = generation self).
  { revert C. unfold create_pipes.
    destruct (AI.Pipe.init 400 g) as [p1 g1].
    destruct (AI.Pipe.init 600 g1) as [p2 g2].
    destruct (AI.Pipe.init 800 g2) as [p3 g3].
    intros [= <- <-]. cbn. auto. }
  destruct C0 as (B0 & P0 & S0 & G0).
  set (n := Z.to_nat (max_frames - 0)).
  assert (Hn : Z.of_nat n = 1000%Z) by reflexivity.
  destruct (frame_loop exp n 0 events h self0 g0) as [[|f1 self1 g1]|e] eqn:L;
    cbn [rbind]; try discriminate.
  intros [= <- <- <-]. cbn [birds set_birds population_size best_score
                                 generation].
  destruct (frame_loop_inv events h n 0%Z self0 g0 f1 self1 g1)
    as (J1 & J2 & J3 & J4 & J5 & J6 & J7); [|exact L|].
  { rewrite B0. apply Forall_forall. intros b Hb.
    apply list_elem_of_fmap in Hb as (b0 & -> & _).
    unfold frame_inv, reset_bird. cbn. split; [lia|]. split; [auto|].
    discriminate. }
  split; [reflexivity|]. split; [|split; [|repeat split; congruence]].
  - apply Forall_forall. intros b Hb.
    apply list_elem_of_fmap in Hb as (b1 & -> & Hb1).
    rewrite Forall_forall in J1. pose proof (J1 b1 Hb1) as I.
    destruct (finalize_inv f1 b1 I) as (F1 & F2 & F3 & _).
    destruct I as (Ir & Ia & _).
    split; [exact F1|]. rewrite F2, F3. split; [lia|].
    intro A. rewrite (Ia A). destruct J3 as [->|D]; [lia|].
    rewrite Forall_forall in D. rewrite (D b1 Hb1) in A. discriminate.
  - rewrite B0 in J4.
    apply Forall2_same_length_lookup_2.
    { rewrite length_map, <- (Forall2_length _ _ _ J4), length_map.
      reflexivity. }
    intros i b b' E1 E2.
    rewrite list_lookup_fmap in E2.
    destruct (birds self1 !! i) as [b1|] eqn:E3; [|discriminate].
    injection E2 as <-.
    destruct (Forall2_lookup_r _ _ _ _ _ J4 E3) as (b0 & E4 & Hx & Hb).
    rewrite list_lookup_fmap, E1 in E4. injection E4 as <-.
    rewrite Forall_forall in J1.
    destruct (finalize_inv f1 b1 (J1 b1 (list_elem_of_lookup_2 _ _ _ E3)))
      as (_ & _ & _ & F4 & F5).
    rewrite F4, F5, Hx, Hb. cbn. auto.
Qed.

End Generation.

(** X3 (see C4): a bird's fitness after a generation is its score plus a
    tenth of the number of frames it survived, and its score is that
    number: whenever
    [run_generation] returns fitness values, they are the final [fitness]
    attributes, every bird has [fitness = score + score * 0.1] with a score
    between 0 and 1000, and a bird still alive has survived all 1000
    frames.  Every bird is at x = 100 and keeps its brain. *)
Theorem run_generation_fitness (exp : Q -> Q) (self : AI.FlappyAI.t)
        (events : Z -> list AI.Event) (h : Heap) (g : Random.Rng)
        (fs : list Q) (self' : AI.FlappyAI.t) (g' : Random.Rng) :
  AI.FlappyAI.run_generation exp self events h g = Ok (Some (fs, self', g')) ->
  fs = map AI.BirdData.fitness (AI.FlappyAI.birds self')
  /\ length fs = length (AI.FlappyAI.birds self)
  /\ Forall (fun b =>
               AI.BirdData.fitness b
               = AI.FlappyAI.fitness_of (AI.BirdData.score b)
                                        (AI.BirdData.score b)
               /\ (0 <= AI.BirdData.score b <= 1000)%Z
               /\ (AI.BirdData.alive b = true ->
                   AI.BirdData.score b = 1000%Z))
            (AI.FlappyAI.birds self')
  /\ Forall2 (fun b b' => AI.BirdData.x b' = 100.0
                          /\ AI.BirdData.brain b' = AI.BirdData.brain b)
             (AI.FlappyAI.birds self) (AI.FlappyAI.birds self').
Proof.
  intro E.
  destruct (run_generation_spec exp self events h g fs self' g' E)
    as (H1 & H2 & H3 & _).
  split; [exact H1|]. split; [|split; [exact H2|exact H3]].
  rewrite H1, length_map. symmetry. apply (Forall2_length _ _ _ H3).
Qed.

Lemma run_generation_fitness_witness :
  exists fs self' g',
    AI.FlappyAI.run_generation Samples.exp_approx Samples.lone_bird
                               Samples.no_events Samples.zero_heap
                               Samples.rng0
    = Ok (Some (fs, self', g'))
    /\ Forall (fun b =>
                 AI.BirdData.fitness b
                 = AI.FlappyAI.fitness_of (AI.BirdData.score b)
                                          (AI.BirdData.score b))
              (AI.FlappyAI.birds self').
Proof.
  eassert (E : AI.FlappyAI.run_generation Samples.exp_approx
                 Samples.lone_bird Samples.no_events Samples.zero_heap
                 Samples.rng0 = Ok (Some (_, _, _)))
    by (vm_compute; reflexivity).
  eexists _, _, _. split; [exact E|].
  destruct (run_generation_fitness _ _ _ _ _ _ _ _ E) as (_ & _ & H & _).
  eapply Forall_impl; [exact H|]. cbn. intros b Hb. apply Hb.
Defined.

(** ** Pipes: [Pipe.reset_height], [Pipe.update], [update_pipes] *)

Section Pipes.
Import AI.PipeData.




End Pipes.

(** ** The playable game never raises: [update_pipes], [tick] *)

Section PlayableGame.
Import Playable.FlappyGame.










(** Restarting gives exactly a fresh game. *)
Lemma restart_is_init (game : t) (g : Random.Rng) :
  pipe_spacing game = 200 -> restart_game game g = init g.
Proof.
  intro H. unfold restart_game, init.
  destruct (create_players g) as [[hb ais] g1]. cbn.
  unfold create_initial_pipes.
  destruct (Playable.Pipe.init 400 g1) as [p1 g2].
  destruct (Playable.Pipe.init 600 g2) as [p2 g3].
  destruct (Playable.Pipe.init 800 g3) as [p3 g4].
  cbn. now rewrite H.
Qed.


Lemma flap_keeps (b : Playable.BirdData.t) :
  Playable.BirdData.x (Playable.Bird.flap b) = Playable.BirdData.x b
  /\ Playable.BirdData.is_ai (Playable.Bird.flap b)
     = Playable.BirdData.is_ai b
  /\ Playable.BirdData.brain (Playable.Bird.flap b)
     = Playable.BirdData.brain b
  /\ Playable.BirdData.score (Playable.Bird.flap b)
     = Playable.BirdData.score b
  /\ Playable.BirdData.alive (Playable.Bird.flap b)
     = Playable.BirdData.alive b.
Proof.
  unfold Playable.Bird.flap. destruct (Playable.BirdData.alive b) eqn:A;
    cbn; auto.
Qed.


Section Frames.
Variable exp : Q -> Q.
Hypothesis exp_pos : forall q, 0 < exp q.

Lemma playable_think_total (b : Playable.BirdData.t)
      (ps : list Playable.PipeData.t) :
  ps <> [] -> playable_bird_ok b ->
  exists d, Playable.Bird.think exp b ps = Ok d.
Proof.
  intros Hne Hok. unfold Playable.Bird.think.
  destruct (Playable.BirdData.is_ai b) eqn:A; cbn [negb];
    [|eexists; reflexivity].
  destruct ps as [|p ps]; [congruence|].
  destruct (choose_pipe_cons_playable b p ps) as (q & -> & _).
  cbn [rbind]. destruct (Hok A) as (br & Hb & Hn).
  destruct (decide_ready_playable exp b q br Hb Hn) as (o & ->).
  now apply sigmoid_defined.
Qed.

Lemma playable_update_keeps (b : Playable.BirdData.t) :
  Playable.BirdData.x (Playable.Bird.update b) = Playable.BirdData.x b
  /\ Playable.BirdData.is_ai (Playable.Bird.update b)
     = Playable.BirdData.is_ai b
  /\ Playable.BirdData.brain (Playable.Bird.update b)
     = Playable.BirdData.brain b
  /\ Playable.BirdData.score (Playable.Bird.update b)
     = Playable.BirdData.score b.
Proof.
  unfold Playable.Bird.update. cbn.
  destruct (Qle_bool _ _ || Qle_bool _ _); cbn; auto.
Qed.

Lemma playable_check_pipes_keeps (ps : list Playable.PipeData.t)
      (b : Playable.BirdData.t) :
  Playable.BirdData.x (check_pipes ps b) = Playable.BirdData.x b
  /\ Playable.BirdData.is_ai (check_pipes ps b) = Playable.BirdData.is_ai b
  /\ Playable.BirdData.brain (check_pipes ps b) = Playable.BirdData.brain b
  /\ Playable.BirdData.score (check_pipes ps b) = Playable.BirdData.score b.
Proof.
  induction ps as [|p ps IH]; cbn; [auto|].
  destruct (Playable.Pipe.collides_with p b); [cbn; auto|exact IH].
Qed.

Lemma score_pipes_keeps (ps : list Playable.PipeData.t)
      (b : Playable.BirdData.t) :
  Playable.BirdData.x (score_pipes ps b) = Playable.BirdData.x b
  /\ Playable.BirdData.is_ai (score_pipes ps b) = Playable.BirdData.is_ai b
  /\ Playable.BirdData.brain (score_pipes ps b) = Playable.BirdData.brain b
  /\ Playable.BirdData.alive (score_pipes ps b) = Playable.BirdData.alive b
  /\ (Playable.BirdData.score b <= Playable.BirdData.score (score_pipes ps b)
      <= Playable.BirdData.score b + 1)%Z.
Proof.
  induction ps as [|p ps IH]; cbn; [repeat split; lia|].
  destruct (_ && _); [cbn; repeat split; lia|exact IH].
Qed.

Lemma playable_bird_frame_total (ps : list Playable.PipeData.t)
      (b : Playable.BirdData.t) :
  ps <> [] -> playable_bird_ok b ->
  exists b',
    bird_frame exp ps b = Ok b'
    /\ Playable.BirdData.x b' = Playable.BirdData.x b
    /\ Playable.BirdData.is_ai b' = Playable.BirdData.is_ai b
    /\ Playable.BirdData.brain b' = Playable.BirdData.brain b
    /\ (Playable.BirdData.score b <= Playable.BirdData.score b'
        <= Playable.BirdData.score b + 1)%Z.
Proof.
  intros Hne Hok. unfold bird_frame.
  assert (D : exists d,
             (if Playable.BirdData.is_ai b
              then Playable.Bird.think exp b ps else Ok false) = Ok d).
  { destruct (Playable.BirdData.is_ai b);
      [now apply playable_think_total|eexists; reflexivity]. }
  destruct D as (d & ->). cbn [rbind].
  set (b1 := if d then Playable.Bird.flap b else b).
  assert (H1 : Playable.BirdData.x b1 = Playable.BirdData.x b
               /\ Playable.BirdData.is_ai b1 = Playable.BirdData.is_ai b
               /\ Playable.BirdData.brain b1 = Playable.BirdData.brain b
               /\ Playable.BirdData.score b1 = Playable.BirdData.score b).
  { subst b1. destruct d; [|auto].
    destruct (flap_keeps b) as (F1 & F2 & F3 & F4 & _). auto. }
  destruct H1 as (X1 & A1 & B1 & S1).
  destruct (playable_update_keeps b1) as (X2 & A2 & B2 & S2).
  destruct (playable_check_pipes_keeps ps (Playable.Bird.update b1))
    as (X3 & A3 & B3 & S3).
  set (b3 := check_pipes ps (Playable.Bird.update b1)) in *.
  destruct (Playable.BirdData.alive b3).
  - destruct (score_pipes_keeps ps b3) as (X4 & A4 & B4 & _ & S4).
    eexists. split; [reflexivity|].
    repeat split; try congruence; lia.
  - eexists. split; [reflexivity|].
    repeat split; try congruence; lia.
Qed.

Lemma birds_loop_total (ps : list Playable.PipeData.t)
      (bs : list Playable.BirdData.t) :
  ps <> [] -> Forall playable_bird_ok bs ->
  forall n,
    exists bs' n',
      birds_loop exp ps bs n = Ok (bs', n')
      /\ Forall2 playable_step bs bs'
      /\ (n' = n
          <-> Forall (fun b => Playable.BirdData.alive b = false) bs)
      /\ (n <= n')%nat.
Proof.
  intros Hne. induction 1 as [|b bs Hb _ IH]; intro n; cbn [birds_loop].
  - exists [], n. repeat split; auto; try constructor.
  - destruct (Playable.BirdData.alive b) eqn:A; cbn [negb].
    + destruct (playable_bird_frame_total ps b Hne Hb)
        as (b' & -> & Hx & Ha & Hbr & Hs).
      cbn [rbind]. destruct (IH (S n)) as (bs' & n' & -> & F & _ & Hle).
      cbn [rbind]. exists (b' :: bs'), n'. split; [reflexivity|].
      split; [constructor; [|exact F]|].
      * unfold playable_step. repeat split; try assumption; try lia.
        congruence.
      * split; [|lia]. split; [lia|].
        intro K. inversion K; subst. congruence.
    + destruct (IH n) as (bs' & n' & -> & F & Hiff & Hle).
      cbn [rbind]. exists (b :: bs'), n'. split; [reflexivity|].
      split; [constructor; [|exact F]|].
      * unfold playable_step. repeat split; auto; lia.
      * split; [|exact Hle]. rewrite Hiff. split.
        -- intro K. now constructor.
        -- intro K. now inversion K.
Qed.

Lemma update_birds_spec (game : t) :
  game_ok game ->
  exists game',
    update_birds exp game = Ok game'
    /\ game_ok game'
    /\ pipes game' = pipes game
    /\ Forall2 playable_step (all_birds game) (all_birds game')
    /\ (game_over game' = true
        <-> game_over game = true
            \/ Forall (fun b => Playable.BirdData.alive b = false)
                      (all_birds game)).
Proof.
  intros (H1 & H2 & H3 & H4 & H5). unfold update_birds.
  destruct (birds_loop_total (pipes game) (all_birds game) H1 H5 0%nat)
    as (bs & n & -> & F & Hiff & _).
  cbn [rbind].
  assert (Hbs : exists hb ais, bs = hb :: ais).
  { unfold all_birds in F. inversion F; subst. eauto. }
  destruct Hbs as (hb & ais & ->).
  assert (Hok : Forall playable_bird_ok (hb :: ais)).
  { apply Forall_forall. intros b' Hb'.
    apply list_elem_of_lookup in Hb' as [i Hi].
    destruct (Forall2_lookup_r _ _ _ _ _ F Hi) as (b & Eb & _ & Ha & Hbr & _).
    rewrite Forall_forall in H5.
    pose proof (H5 b (list_elem_of_lookup_2 _ _ _ Eb)) as Hb.
    unfold playable_bird_ok in *. rewrite Ha, Hbr. exact Hb. }
  assert (G : forall v,
             game_ok (mk (pipes game) (pipe_spacing game) v hb ais)).
  { intro v. unfold game_ok, all_birds. cbn. auto. }
  destruct (n =? 0)%nat eqn:N.
  - apply Nat.eqb_eq in N. eexists. split; [reflexivity|].
    unfold end_game, set_game_over, set_all_birds. cbn.
    split; [apply G|]. split; [reflexivity|]. split; [exact F|].
    split; [intros _; right; now apply Hiff|reflexivity].
  - apply Nat.eqb_neq in N. eexists. split; [reflexivity|].
    unfold set_all_birds. cbn.
    split; [apply G|]. split; [reflexivity|]. split; [exact F|].
    split; [intro K; now left|].
    intros [K|K]; [exact K|]. apply Hiff in K. congruence.
Qed.



End Frames.

End PlayableGame.

Section PlayableProperties.
Import Playable.FlappyGame.

Lemma mid_game_ok : game_ok Samples.mid_game.
Proof.
  unfold game_ok, Samples.mid_game, all_birds. cbn.
  split; [discriminate|]. split; [lia|]. split; [|split; [reflexivity|]].
  - repeat (constructor;
            [unfold playable_pipe_ok; cbn;
             repeat split; vm_compute; first [reflexivity|discriminate]|]).
    constructor.
  - repeat (constructor;
            [unfold playable_bird_ok; cbn; intro;
             first [discriminate|eexists; split; reflexivity]|]).
    constructor.
Qed.





(** X7: one frame of the playable game, for the birds: [update_birds]
    leaves the pipes alone; a dead bird is not changed at all; a live bird
    keeps its x, its kind and its brain, and its score stays or goes up by
    one; and the game is over afterwards exactly when it was over before
    or no bird was alive when the frame began. *)
Theorem update_birds_frame (exp : Q -> Q) (game : t) :
  (forall q, 0 < exp q) ->
  game_ok game ->
  exists game',
    update_birds exp game = Ok game'
    /\ pipes game' = pipes game
    /\ Forall2 playable_step (all_birds game) (all_birds game')
    /\ (game_over game' = true
        <-> game_over game = true
            \/ Forall (fun b => Playable.BirdData.alive b = false)
                      (all_birds game)).
Proof.
  intros exp_pos Hok.
  destruct (update_birds_spec exp exp_pos game Hok)
    as (game' & E & _ & H1 & H2 & H3).
  exists game'. auto.
Qed.

Lemma update_birds_frame_witness :
  exists game',
    update_birds Samples.exp_approx Samples.mid_game = Ok game'
    /\ pipes game' = pipes Samples.mid_game
    /\ Forall2 playable_step (all_birds Samples.mid_game) (all_birds game')
    /\ (game_over game' = true
        <-> game_over Samples.mid_game = true
            \/ Forall (fun b => Playable.BirdData.alive b = false)
                      (all_birds Samples.mid_game)).
Proof.
  apply (update_birds_frame Samples.exp_approx Samples.mid_game).
  - exact exp_approx_pos.
  - exact mid_game_ok.
Defined.

(** X8: pressing R after the game is over gives exactly a fresh game:
    [restart_game] returns what [FlappyGame()] returns from the same
    generator state (the spacing is 200 in every game). *)
Theorem restart_gives_fresh_game (game : t) (g : Random.Rng) :
  pipe_spacing game = 200 -> restart_game game g = init g.
Proof. apply restart_is_init. Qed.

Lemma restart_gives_fresh_game_witness :
  restart_game Samples.mid_game Samples.rng0 = init Samples.rng0.
Proof.
  apply (restart_gives_fresh_game Samples.mid_game Samples.rng0).
  reflexivity.
Defined.

(** X9: the scoring loop of the playable game has no memory: it adds one
    to the score exactly when some listed pipe has its right edge more
    than 5 behind the bird's x, however often that pipe has counted
    before, and it changes nothing else of the bird. *)
Theorem score_pipes_spec (ps : list Playable.PipeData.t)
        (b : Playable.BirdData.t) :
  score_pipes ps b
  = if existsb (fun p => Playable.PipeData.x p + Playable.PipeData.width p
                         <? Playable.BirdData.x b - 5) ps
    then Playable.BirdData.set_score (Playable.BirdData.score b + 1) b
    else b.
Proof.
  induction ps as [|p ps IH]; cbn; [reflexivity|].
  unfold Playable.Pipe.passed_by.
  destruct (ltb_cases (Playable.PipeData.x p + Playable.PipeData.width p)
                      (Playable.BirdData.x b - 5)) as [[H ->]|[H ->]].
  - assert (H' : Playable.PipeData.x p + Playable.PipeData.width p
                 < Playable.BirdData.x b) by lra.
    apply ltb_true in H'. rewrite H'. reflexivity.
  - rewrite andb_false_r. cbn. exact IH.
Qed.

(** X10: [handle_events] returns [False] (stop) exactly when the batch
    holds a QUIT or an ESCAPE.  While the game is running (not over), the
    events change nothing but the human's bird, which is left as it was or
    flapped; R does nothing and no random number is drawn. *)
Theorem handle_events_spec (events : list Playable.Event) (game : t)
        (g : Random.Rng) :
  (handle_events events game g).1.1 = negb (existsb stops_game events)
  /\ (game_over game = false ->
      (handle_events events game g).2 = g
      /\ ((handle_events events game g).1.2 = game
          \/ (handle_events events game g).1.2
             = set_human (Playable.Bird.flap (human game)) game)).
Proof.
  split.
  - revert game g. induction events as [|ev events IH]; intros game g;
      cbn [handle_events existsb]; [reflexivity|].
    destruct ev as [|[| | |]|]; cbn [stops_game orb fst]; try apply IH;
      try reflexivity.
    destruct (game_over game); [|apply IH].
    destruct (restart_game game g) as [game' g']. apply IH.
  - intro Hrun.
    assert (K : forall game0,
               game_over game0 = false ->
               (game0 = game
                \/ game0 = set_human (Playable.Bird.flap (human game)) game) ->
               (handle_events events game0 g).2 = g
               /\ ((handle_events events game0 g).1.2 = game
                   \/ (handle_events events game0 g).1.2
                      = set_human (Playable.Bird.flap (human game)) game)).
    { induction events as [|ev events IH]; intros game0 H0 Hc;
        cbn [handle_events]; [auto|].
      destruct ev as [|[| | |]|]; cbn [fst snd]; auto.
      - apply IH; [exact H0|]. right.
        destruct Hc as [->| ->]; [reflexivity|].
        unfold set_human. cbn.
        destruct (flap_keeps (human game)) as (_ & _ & _ & _ & Ha).
        unfold Playable.Bird.flap at 1. rewrite Ha.
        unfold Playable.Bird.flap.
        destruct (Playable.BirdData.alive (human game)); reflexivity.
      - rewrite H0. now apply IH. }
    apply K; [exact Hrun|now left].
Qed.

Lemma handle_events_spec_witness :
  (handle_events [Playable.KEYDOWN Playable.K_r;
                  Playable.KEYDOWN Playable.K_SPACE]
                 Samples.mid_game Samples.rng0).2 = Samples.rng0.
Proof.
  apply (proj2 (handle_events_spec
                  [Playable.KEYDOWN Playable.K_r;
                   Playable.KEYDOWN Playable.K_SPACE]
                  Samples.mid_game Samples.rng0)).
  reflexivity.
Defined.

End PlayableProperties.

(** ** The simulation never raises: [run_generation] *)

Section GenerationTotal.
Import AI.FlappyAI AI.BirdData.

Variable exp : Q -> Q.
Hypothesis exp_pos : forall q, 0 < exp q.








End GenerationTotal.



(** ** Descent: every new brain comes from an old one *)

Section Descent.
Import AI.FlappyAI AI.BirdData.




Lemma brain_value_app (h ext : Heap) (b : t) (v : list Q * Q) :
  brain_value h b = Some v -> brain_value (h ++ ext) b = Some v.
Proof.
  unfold brain_value. intro Hv.
  destruct (h !! brain b) as [[wl bias|]|] eqn:Hd; try discriminate.
  destruct (h !! wl) as [[|ws]|] eqn:Hw; try discriminate.
  now rewrite (lookup_app_l_Some _ _ _ _ Hd), (lookup_app_l_Some _ _ _ _ Hw).
Qed.

Lemma brain_ranged_app (h ext : Heap) (b : t) :
  brain_ranged h b -> brain_ranged (h ++ ext) b.
Proof.
  intros (ws & bias & Hv & R). exists ws, bias.
  split; [now apply brain_value_app|exact R].
Qed.






End Descent.



(** ** The whole evolution: [FlappyAI.evolve] *)

Section EvolutionTotal.
Import AI.FlappyAI AI.BirdData.

Variable exp : Q -> Q.
Hypothesis exp_pos : forall q, 0 < exp q.







End EvolutionTotal.



(** ** Selection: [FlappyAI.tournament_selection] *)

Section Tournament.
Import AI.FlappyAI.

Lemma insert_swap {A} (l : list A) (j : nat) (xj xl : A) :
  l !! j = Some xj -> xj :: <[j := xl]> l ≡ₚ xl :: l.
Proof.
  revert j. induction l as [|a l IH]; intros [|j] E; try discriminate.
  - injection E as ->. cbn. apply Permutation_swap.
  - cbn in E. cbn [list_insert]. change (<[S j:=xl]> (a :: l))
      with (a :: <[j:=xl]> l).
    rewrite (Permutation_swap a xj), (IH j E). apply Permutation_swap.
Qed.

Lemma pool_step {A} (pool : list A) (j : nat) (xj xl : A) :
  pool !! j = Some xj -> pool !! (length pool - 1)%nat = Some xl ->
  xj :: take (length pool - 1) (<[j := xl]> pool) ≡ₚ pool.
Proof.
  intros Ej El.
  assert (Hs : pool = take (length pool - 1) pool ++ [xl]).
  { rewrite <- (take_drop (length pool - 1) pool) at 1.
    rewrite (drop_S _ _ _ El), drop_ge by lia. reflexivity. }
  pose proof (lookup_lt_Some _ _ _ Ej) as Hj.
  destruct (decide (j = length pool - 1)%nat) as [->|Hne].
  - rewrite Ej in El. injection El as <-.
    rewrite list_insert_id by exact Ej.
    rewrite Hs at 3. apply Permutation_cons_append.
  - rewrite take_insert_lt by lia.
    rewrite (insert_swap _ j xj xl)
      by (rewrite lookup_take_lt by lia; exact Ej).
    rewrite Hs at 3. apply Permutation_cons_append.
Qed.

Lemma sample_pool_distinct {A} (k : nat) :
  forall (pool picked : list A) (g g' : Random.Rng),
    Random.sample_pool pool k g = Ok (picked, g') ->
    length picked = k /\ picked ⊆+ pool.
Proof.
  induction k as [|k IH]; intros pool picked g g'; cbn [Random.sample_pool].
  - intros [= <- <-]. split; [reflexivity|]. apply submseteq_nil_l.
  - destruct (Random.randbelow (length pool) g) as [j g1].
    unfold Py.index at 1.
    destruct (pool !! j) as [xj|] eqn:Ej; [|discriminate]. cbn [rbind].
    unfold Py.index at 1.
    destruct (pool !! (length pool - 1)%nat) as [xl|] eqn:El;
      [|discriminate].
    cbn [rbind].
    destruct (Random.sample_pool _ k g1) as [[rest g2]|e] eqn:E;
      [|discriminate].
    cbn [rbind]. intros [= <- <-].
    destruct (IH _ _ _ _ E) as [Hlen Hsub].
    split; [cbn; now rewrite Hlen|].
    rewrite <- (pool_step pool j xj xl Ej El). now apply submseteq_skip.
Qed.

Lemma sort_desc_head {A} (l : list (A * Q)) (best : A * Q) :
  sort_desc l !! 0%nat = Some best ->
  best ∈ l /\ Forall (fun e => snd e <= snd best) l.
Proof.
  intro E. pose proof (sort_desc_sorted l) as Hs.
  pose proof (sort_desc_perm l) as Hp.
  destruct (sort_desc l) as [|b rest]; [discriminate|].
  injection E as ->. rewrite <- Hp. split; [now left|].
  inversion Hs; subst. constructor; [apply Qle_refl|assumption].
Qed.

Lemma tournament_selection_spec
      (pairs : list (AI.BirdData.t * Q)) (g : Random.Rng) :
  match pairs with
  | [] => tournament_selection pairs g = Raise IndexError
  | _ =>
      exists tournament best g',
        Random.sample pairs (Nat.min 3 (length pairs)) g
        = Ok (tournament, g')
        /\ tournament_selection pairs g = Ok (fst best, g')
        /\ length tournament = Nat.min 3 (length pairs)
        /\ tournament ⊆+ pairs
        /\ best ∈ tournament
        /\ Forall (fun e => snd e <= snd best) tournament
  end.
Proof.
  destruct pairs as [|p pairs]; [reflexivity|].
  set (ps := p :: pairs).
  unfold tournament_selection, Random.sample.
  destruct (sample_pool_total (Nat.min 3 (length ps)) ps g ltac:(lia))
    as (picked & g' & E & Hk & _).
  rewrite E. cbn [rbind].
  destruct (sample_pool_distinct _ _ _ _ _ E) as [_ Hsub].
  assert (Hs : (0 < length (sort_desc picked))%nat)
    by (rewrite sort_desc_length, Hk; cbn; lia).
  destruct (lookup_lt_is_Some_2 _ 0%nat Hs) as [best Eb].
  rewrite (index_eq _ _ _ Eb). cbn [rbind].
  destruct (sort_desc_head picked best Eb) as [Hin Hmax].
  exists picked, best, g'. auto 10.
Qed.

End Tournament.

(** X14: tournament selection returns the fittest bird of a tournament of
    distinct entries.  On an empty ranking it raises [IndexError].  On any
    other it returns: the tournament [random.sample] draws has 3 entries
    (all entries of a shorter ranking), taken from different places of the
    ranking, and the bird returned belongs to an entry of the tournament
    whose fitness no other entry of the tournament exceeds. *)
Theorem tournament_selects_fittest_of_sample
        (pairs : list (AI.BirdData.t * Q)) (g : Random.Rng) :
  match pairs with
  | [] => AI.FlappyAI.tournament_selection pairs g = Raise IndexError
  | _ =>
      exists tournament best g',
        Random.sample pairs (Nat.min 3 (length pairs)) g
        = Ok (tournament, g')
        /\ AI.FlappyAI.tournament_selection pairs g = Ok (fst best, g')
        /\ length tournament = Nat.min 3 (length pairs)
        /\ tournament ⊆+ pairs
        /\ best ∈ tournament
        /\ Forall (fun e => snd e <= snd best) tournament
  end.
Proof. apply tournament_selection_spec. Qed.

(** ** The pipe [think] looks at *)

Section ClosestPipe.
Import AI.BirdData.

Lemma closest_inv_step (self : t) (seen : list AI.PipeData.t)
      (acc : option AI.PipeData.t * option Q) (p : AI.PipeData.t) :
  closest_inv self seen acc ->
  closest_inv self (seen ++ [p]) (AI.Bird.closest_step self acc p).
Proof.
  intro Inv. unfold AI.Bird.closest_step.
  fold (pipe_distance self p).
  destruct (ltb_cases (x self - 50) (AI.PipeData.x p)) as [[A ->]|[A ->]].
  - destruct Inv as [[-> Hnone]|(i & q & -> & Ei & Aq & Hmin)]; cbn [snd].
    + right. exists (length seen), p. split; [reflexivity|].
      split; [apply list_lookup_middle; reflexivity|]. split; [exact A|].
      intros j p' Ej Ap'.
      destruct (decide (j < length seen)%nat) as [Hj|Hj].
      * rewrite lookup_app_l in Ej by exact Hj.
        pose proof (Forall_lookup_1 _ _ _ _ Hnone Ej) as B. cbn in B.
        unfold pipe_ahead in Ap'. lra.
      * rewrite lookup_app_r in Ej by lia.
        destruct (j - length seen)%nat as [|[|]] eqn:D; try discriminate.
        injection Ej as <-. split; [apply Qle_refl|lia].
    + destruct (ltb_cases (pipe_distance self p) (pipe_distance self q))
        as [[L ->]|[L ->]].
      * right. exists (length seen), p. split; [reflexivity|].
        split; [apply list_lookup_middle; reflexivity|]. split; [exact A|].
        intros j p' Ej Ap'.
        destruct (decide (j < length seen)%nat) as [Hj|Hj].
        -- rewrite lookup_app_l in Ej by exact Hj.
           destruct (Hmin j p' Ej Ap') as [M _]. split; [lra|intros _; lra].
        -- rewrite lookup_app_r in Ej by lia.
           destruct (j - length seen)%nat as [|[|]] eqn:D; try discriminate.
           injection Ej as <-. split; [apply Qle_refl|lia].
      * right. exists i, q. split; [reflexivity|].
        pose proof (lookup_lt_Some _ _ _ Ei) as Hi.
        split; [now apply lookup_app_l_Some|]. split; [exact Aq|].
        intros j p' Ej Ap'.
        destruct (decide (j < length seen)%nat) as [Hj|Hj].
        -- rewrite lookup_app_l in Ej by exact Hj. now apply Hmin.
        -- rewrite lookup_app_r in Ej by lia.
           destruct (j - length seen)%nat as [|[|]] eqn:D; try discriminate.
           injection Ej as <-. split; [exact L|lia].
  - destruct Inv as [[-> Hnone]|(i & q & -> & Ei & Aq & Hmin)].
    + left. split; [reflexivity|]. apply Forall_app. split; [exact Hnone|].
      now constructor.
    + right. exists i, q. split; [reflexivity|].
      pose proof (lookup_lt_Some _ _ _ Ei) as Hi.
      split; [now apply lookup_app_l_Some|]. split; [exact Aq|].
      intros j p' Ej Ap'.
      destruct (decide (j < length seen)%nat) as [Hj|Hj].
      * rewrite lookup_app_l in Ej by exact Hj. now apply Hmin.
      * rewrite lookup_app_r in Ej by lia.
        destruct (j - length seen)%nat as [|[|]] eqn:D; try discriminate.
        injection Ej as <-. unfold pipe_ahead in Ap'. lra.
Qed.

Lemma closest_inv_all (self : t) (ps : list AI.PipeData.t) :
  closest_inv self ps (fold_left (AI.Bird.closest_step self) ps (None, None)).
Proof.
  induction ps as [|p ps IH] using rev_ind.
  - left. split; [reflexivity|constructor].
  - rewrite fold_left_app. cbn [fold_left]. now apply closest_inv_step.
Qed.

Lemma choose_pipe_nearest (self : t) (ps : list AI.PipeData.t)
      (j0 : nat) (p0 : AI.PipeData.t) :
  ps !! j0 = Some p0 -> pipe_ahead self p0 ->
  exists i q,
    AI.Bird.choose_pipe self ps = Ok q
    /\ ps !! i = Some q
    /\ pipe_ahead self q
    /\ forall j p, ps !! j = Some p -> pipe_ahead self p ->
         pipe_distance self q <= pipe_distance self p
         /\ ((j < i)%nat -> pipe_distance self q < pipe_distance self p).
Proof.
  intros E0 A0. unfold AI.Bird.choose_pipe, AI.Bird.closest.
  destruct (closest_inv_all self ps) as [[_ Hnone]|(i & q & -> & R)].
  - pose proof (Forall_lookup_1 _ _ _ _ Hnone E0) as B. cbn in B.
    unfold pipe_ahead in A0. lra.
  - exists i, q. cbn [fst]. split; [reflexivity|exact R].
Qed.

End ClosestPipe.

(** X15: the pipe the network looks at is the nearest pipe ahead.  A pipe
    counts as ahead while its left edge is right of [x - 50].  When the
    list holds such a pipe, [think] works with one of them: none of the
    pipes ahead is nearer to the bird (in [abs(pipe.x - self.x)]), and
    those before it in the list are strictly farther, so that of two
    pipes at the same distance the earlier one is taken. *)
Theorem think_looks_at_nearest_pipe_ahead (b : AI.BirdData.t)
        (ps : list AI.PipeData.t) (j0 : nat) (p0 : AI.PipeData.t) :
  ps !! j0 = Some p0 -> pipe_ahead b p0 ->
  exists i q,
    AI.Bird.choose_pipe b ps = Ok q
    /\ ps !! i = Some q
    /\ pipe_ahead b q
    /\ forall j p, ps !! j = Some p -> pipe_ahead b p ->
         pipe_distance b q <= pipe_distance b p
         /\ ((j < i)%nat -> pipe_distance b q < pipe_distance b p).
Proof. apply choose_pipe_nearest. Qed.

Lemma think_looks_at_nearest_pipe_ahead_witness :
  exists i q,
    AI.Bird.choose_pipe (Samples.bird_at 300 0)
      [Samples.pipe_at 60 100 300; Samples.pipe_at 260 100 300] = Ok q
    /\ [Samples.pipe_at 60 100 300; Samples.pipe_at 260 100 300] !! i
       = Some q
    /\ pipe_ahead (Samples.bird_at 300 0) q.
Proof.
  destruct (think_looks_at_nearest_pipe_ahead (Samples.bird_at 300 0)
              [Samples.pipe_at 60 100 300; Samples.pipe_at 260 100 300]
              0%nat (Samples.pipe_at 60 100 300))
    as (i & q & E & Ei & A & _).
  - reflexivity.
  - reflexivity.
  - exists i, q. auto.
Defined.

(** ** When the network says no *)

Section NoFlap.
Import AI.BirdData.

Variable exp : Q -> Q.
Hypothesis exp_ge_1 : forall r, 0 <= r -> 1 <= exp r.

Lemma clamp_nonpos (output : Q) :
  output <= 0 -> Py.max (-500) (Py.min 500 output) <= 0.
Proof.
  intro H. unfold Py.max, Py.min.
  destruct (ltb_cases output 500) as [[_ ->]|[K ->]]; [|lra].
  destruct (ltb_cases (-500) output) as [[_ ->]|[_ ->]]; lra.
Qed.

Lemma sigmoid_nonpos (output : Q) :
  output <= 0 ->
  (do activated <-
     Py.div 1.0 (1.0 + exp (- Py.max (-500) (Py.min 500 output)));
   Ok (0.5 <? activated)) = Ok false.
Proof.
  intro H. pose proof (clamp_nonpos output H) as C.
  set (c := Py.max (-500) (Py.min 500 output)) in *.
  assert (E : 1 <= exp (- c)) by (apply exp_ge_1; lra).
  unfold Py.div. destruct (Qeq_bool _ 0) eqn:D.
  - apply Qeq_bool_iff in D. lra.
  - cbn [rbind]. f_equal. apply ltb_false.
    apply Qle_shift_div_r; lra.
Qed.

Lemma decide_nonpos (h : Heap) (self : t) (q : AI.PipeData.t)
      (w0 w1 w2 w3 bias : Q) :
  brain_value h self = Some ([w0; w1; w2; w3], bias) ->
  bias + y self / 600.0 * w0 + velocity self / 10.0 * w1
  + (AI.PipeData.x q - x self) / 400.0 * w2
  + (AI.PipeData.top_height q + AI.PipeData.bottom_height q) / 2 / 600.0
    * w3 <= 0 ->
  AI.Bird.decide exp h self q = Ok false.
Proof.
  intros Hv Hs. unfold brain_value in Hv.
  destruct (h !! brain self) as [[wl bias'|]|] eqn:Hd; try discriminate.
  destruct (h !! wl) as [[|ws]|] eqn:Hl; try discriminate.
  injection Hv as -> ->.
  unfold AI.Bird.decide, AI.Bird.inputs, brain_bias, get_dict.
  rewrite Hd. cbn -[seq].
  rewrite (weighted_sum_four _ _ _ _ _ _ _ _ _ _ _ _ _ Hd Hl).
  cbn [rbind]. now apply sigmoid_nonpos.
Qed.

End NoFlap.

Lemma exp_approx_ge_1 (r : Q) : 0 <= r -> 1 <= Samples.exp_approx r.
Proof.
  intro H. unfold Samples.exp_approx.
  apply Qle_bool_iff in H. rewrite H. apply Qle_bool_iff in H. lra.
Qed.

(** X16: a bird does not flap on a raw sum that is not positive.  For a
    brain of four weights and the pipe [think] works with, when
    [bias + sum(inputs[i] * weights[i])] is at most 0, [think] returns
    [False]: the clamped sum is at most 0, so [math.exp] of its negation
    is at least 1 and the logistic value at most 1/2, which is not above
    0.5.  ([math.exp] is only known to be at least 1 from 0 on.) *)
Theorem think_does_not_flap_on_nonpositive_sum (exp : Q -> Q) (h : Heap)
        (b : AI.BirdData.t) (ps : list AI.PipeData.t) (q : AI.PipeData.t)
        (w0 w1 w2 w3 bias : Q) :
  (forall r, 0 <= r -> 1 <= exp r) ->
  brain_value h b = Some ([w0; w1; w2; w3], bias) ->
  AI.Bird.choose_pipe b ps = Ok q ->
  bias + AI.BirdData.y b / 600.0 * w0 + AI.BirdData.velocity b / 10.0 * w1
  + (AI.PipeData.x q - AI.BirdData.x b) / 400.0 * w2
  + (AI.PipeData.top_height q + AI.PipeData.bottom_height q) / 2 / 600.0
    * w3 <= 0 ->
  AI.Bird.think exp h b ps = Ok false.
Proof.
  intros exp_ge_1 Hv Hq Hs. unfold AI.Bird.think. rewrite Hq. cbn [rbind].
  now apply (decide_nonpos exp exp_ge_1 h b q w0 w1 w2 w3 bias).
Qed.

Lemma think_does_not_flap_on_nonpositive_sum_witness :
  AI.Bird.think Samples.exp_approx
    [FloatList [1; 0; 0; -(3)]; BrainDict 0%nat (-(1))]
    (Samples.bird_at 300 0) [Samples.pipe_at 400 100 300]
  = Ok false.
Proof.
  apply (think_does_not_flap_on_nonpositive_sum Samples.exp_approx
           [FloatList [1; 0; 0; -(3)]; BrainDict 0%nat (-(1))]
           (Samples.bird_at 300 0) [Samples.pipe_at 400 100 300]
           (Samples.pipe_at 400 100 300) 1 0 0 (-(3)) (-(1))).
  - exact exp_approx_ge_1.
  - reflexivity.
  - reflexivity.
  - vm_compute. discriminate.
Defined.
